(** * convert.py: CLOVA OCR results to cropped images and LabelMe documents

    A shallow embedding of [src/convert.py].  Pure helpers ([get_bbox],
    [valid_crop_size], the [split('.')] of a file name, the [{jj:03d}]
    format) are Rocq functions into a result type whose error side carries
    the Python exception.  The batch pipeline [run] is a function from a
    file-system state to an outcome: the exception or value, the state
    reached, and the sequence of output operations performed.

    The file system is a set of directory paths and a map from file paths
    to contents; paths are strings, joined as [posixpath.join] joins them
    and compared letter by letter.  The recognition service and the image
    codec are parameters.  The progress and timing lines [run] prints are
    left out. *)

From Stdlib Require Import ZArith Lia Ascii String DecimalString DecimalNat.
From stdpp Require Import base option list sorting gmap strings.

Local Open Scope string_scope.
Local Open Scope Z_scope.

(** ** Exceptions and results *)

(** The Python exceptions the modelled code can raise.  [SystemExit] is
    what [sys.exit(msg)] raises; [OSError] stands for every other failure of
    an input/output call (a missing or unreadable file, an image that cannot
    be decoded, a failed HTTP request). *)
Inductive exn : Type :=
  | SystemExit (msg : string)
  | ValueError
  | IndexError
  | KeyError
  | FileExistsError
  | FileNotFoundError
  | OSError.

Inductive result (A : Type) : Type :=
  | Ok (a : A)
  | Raise (e : exn).
Arguments Ok {A} a.
Arguments Raise {A} e.

Definition rbind {A B : Type} (m : result A) (k : A -> result B) : result B :=
  match m with
  | Ok a => k a
  | Raise e => Raise e
  end.

Notation "'let?' x ':=' m 'in' k" := (rbind m (fun x => k))
  (at level 10, x name, m at level 100, k at level 200).

(** ** Recognition data *)

(** One vertex [{"x": .., "y": ..}] of a [boundingPoly]; coordinates are
    taken as integers (pixel coordinates). *)
Record point : Type := { x : Z; y : Z }.

(** One entry of [json_data["images"][0]["fields"]], with the two keys the
    code reads. *)
Record field : Type := { inferText : string; vertices : list point }.

(** ** [get_bbox] *)

(** Python's [min(iterable)]: the first item is the candidate, a later item
    replaces it when [item < candidate]; an empty iterable raises
    [ValueError]. *)
Fixpoint min_from (m : Z) (l : list Z) : Z :=
  match l with
  | [] => m
  | v :: l' => min_from (if v <? m then v else m) l'
  end.

Definition py_min (l : list Z) : result Z :=
  match l with
  | [] => Raise ValueError
  | v :: l' => Ok (min_from v l')
  end.

(** Python's [max(iterable)]: a later item replaces the candidate when
    [item > candidate]. *)
Fixpoint max_from (m : Z) (l : list Z) : Z :=
  match l with
  | [] => m
  | v :: l' => max_from (if v >? m then v else m) l'
  end.

Definition py_max (l : list Z) : result Z :=
  match l with
  | [] => Raise ValueError
  | v :: l' => Ok (max_from v l')
  end.

(** [bbox = [left, upper, right, lower]], a Python list of four numbers. *)
Definition get_bbox (points : list point) : result (list Z) :=
  let? left := py_min (map x points) in
  let? upper := py_min (map y points) in
  let? right := py_max (map x points) in
  let? lower := py_max (map y points) in
  Ok [left; upper; right; lower].

(** ** [valid_crop_size] *)

(** [bbox[i]] on a Python list, for the constant indices the code uses. *)
Definition index {A : Type} (l : list A) (i : nat) : result A :=
  match l !! i with
  | Some v => Ok v
  | None => Raise IndexError
  end.

(** [if bbox[2] - bbox[0] < size or bbox[3] - bbox[1] < size: return False];
    [or] evaluates its right operand only when the left one is false. *)
Definition valid_crop_size (bbox : list Z) (size : Z) : result bool :=
  let? b2 := index bbox 2 in
  let? b0 := index bbox 0 in
  if b2 - b0 <? size then Ok false
  else
    let? b3 := index bbox 3 in
    let? b1 := index bbox 1 in
    if b3 - b1 <? size then Ok false else Ok true.

(** ** File names *)

(** [s.split(sep)] for a one-character separator: the pieces between the
    occurrences of [sep], so one more piece than there are occurrences. *)
Fixpoint split (sep : ascii) (s : string) : list string :=
  match s with
  | EmptyString => [EmptyString]
  | String c s' =>
      if Ascii.eqb c sep then EmptyString :: split sep s'
      else match split sep s' with
           | h :: t => String c h :: t
           | [] => [String c EmptyString]
           end
  end.

(** [name, ext = file_name.split('.')]: unpacking into two names raises
    [ValueError] unless the list has exactly two items. *)
Definition split_name_ext (file_name : string) : result (string * string) :=
  match split "." file_name with
  | [name; ext] => Ok (name, ext)
  | _ => Raise ValueError
  end.

(** [f"{jj:03d}"]: the decimal digits of [jj], padded on the left with
    zeros to a width of at least three. *)
Definition decimal (n : nat) : string := NilEmpty.string_of_uint (Nat.to_uint n).

Fixpoint zeros (k : nat) : string :=
  match k with
  | O => EmptyString
  | S k' => String "0" (zeros k')
  end.

Definition format_03d (jj : nat) : string :=
  let s := decimal jj in zeros (3 - String.length s) +:+ s.

(** [cropped_file = f"{name}_{jj:03d}.{ext}"] *)
Definition cropped_file (name ext : string) (jj : nat) : string :=
  name +:+ "_" +:+ format_03d jj +:+ "." +:+ ext.

(** The two control characters of a label record. *)
Definition tab : string := String "009"%char EmptyString.
Definition newline : string := String "010"%char EmptyString.

(** [labels.write(f"{cropped_file}\t{label}\n")] *)
Definition label_record (cropped label : string) : string :=
  cropped +:+ tab +:+ label +:+ newline.

(** ** Paths *)

Definition starts_with (c : ascii) (s : string) : bool :=
  match s with
  | String a _ => Ascii.eqb a c
  | EmptyString => false
  end.

Fixpoint ends_with (c : ascii) (s : string) : bool :=
  match s with
  | EmptyString => false
  | String a EmptyString => Ascii.eqb a c
  | String _ s' => ends_with c s'
  end.

Fixpoint contains (c : ascii) (s : string) : bool :=
  match s with
  | EmptyString => false
  | String a s' => Ascii.eqb a c || contains c s'
  end.

(** [posixpath.join(a, b)]: an absolute [b] replaces [a]; otherwise [b] is
    appended, after a ["/"] unless [a] is empty or already ends with one. *)
Definition path_join (a b : string) : string :=
  if starts_with "/" b then b
  else if String.eqb a "" || ends_with "/" a then a +:+ b
  else a +:+ "/" +:+ b.

(** [s.rstrip(c)] *)
Fixpoint rstrip (c : ascii) (s : string) : string :=
  match s with
  | EmptyString => EmptyString
  | String a s' =>
      match rstrip c s' with
      | EmptyString => if Ascii.eqb a c then EmptyString else String a EmptyString
      | r => String a r
      end
  end.

(** [p[:p.rfind('/') + 1]]: the text up to and including the last ["/"]. *)
Fixpoint head_of (p : string) : string :=
  match p with
  | EmptyString => EmptyString
  | String a p' =>
      match head_of p' with
      | EmptyString => if Ascii.eqb a "/" then "/" else EmptyString
      | h => String a h
      end
  end.

(** [posixpath.dirname(p)]: [head_of p] without its trailing slashes, unless
    it consists of slashes only. *)
Definition dirname (p : string) : string :=
  let head := head_of p in
  match rstrip "/" head with
  | EmptyString => head
  | stripped => stripped
  end.

(** [posixpath.basename(p)]: the text after the last ["/"]. *)
Fixpoint basename (p : string) : string :=
  match p with
  | EmptyString => EmptyString
  | String a p' =>
      if contains "/" p' then basename p'
      else if Ascii.eqb a "/" then p' else p
  end.

(** The proper ancestors of a path: the non-empty text before each ["/"],
    shortest first ([acc] has the characters already read). *)
Fixpoint ancestors_from (acc p : string) : list string :=
  match p with
  | EmptyString => []
  | String a p' =>
      let rest := ancestors_from (acc +:+ String a EmptyString) p' in
      if Ascii.eqb a "/" && negb (String.eqb acc "") then acc :: rest else rest
  end.

Definition ancestors (p : string) : list string := ancestors_from "" p.

(** [s.startswith(prefix)] and the text after the prefix. *)
Fixpoint strip_prefix (prefix s : string) : option string :=
  match prefix, s with
  | EmptyString, _ => Some s
  | String a prefix', String b s' =>
      if Ascii.eqb a b then strip_prefix prefix' s' else None
  | String _ _, EmptyString => None
  end.

(** ** Files *)

(** The parsed recognition response [res]: whether
    [res["images"][0]["fields"]] is there, and the fields it holds. *)
Inductive clova : Type :=
  | NoFields
  | Fields (fields : list field).

(** One entry of [shapes]: [label], [points], [group_id = None],
    [shape_type = "rectangle"], [flags = {}]. *)
Record shape : Type := {
  label : string;
  points : list (list Z);
  group_id : option Z;
  shape_type : string;
  flags : list (string * bool)
}.

(** [json_dict], in the order of its keys. *)
Record labelme : Type := {
  version : string;
  doc_shape_type : string;
  doc_flags : list (string * bool);
  shapes : list shape;
  imagePath : string;
  imageData : option string;
  imageHeight : Z;
  imageWidth : Z
}.

(** What a file holds: an image of a given size, a JSON document of one of
    the two kinds the program writes, or text. *)
Inductive content : Type :=
  | Image (width height : Z)
  | ClovaJson (res : clova)
  | LabelmeJson (doc : labelme)
  | Text (s : string).

(** The file system, by path, and the state of the one handle that outlives
    a statement: [labels].  Paths are compared as strings. *)
Record world : Type := {
  fs_dirs : gset string;
  fs_files : gmap string content;
  labels_open : bool
}.

(** The output operations, in the order they are performed. *)
Inductive event : Type :=
  | MakeDirs (path : string)
  | OpenLabels (path : string)
  | WriteLabels (text : string)
  | CloseLabels
  | DumpClova (path : string) (res : clova)
  | SaveCrop (path : string) (bbox : list Z)
  | CopyFile (src dst : string)
  | DumpLabelme (path : string) (doc : labelme).

(** What the HTTP request and [json.loads] of its body give. *)
Inductive reply : Type :=
  | RequestFailed
  | BadJson
  | Json (res : clova).

(** The external collaborators: the recognition service, asked once per
    image path, and the image codec, which encodes a crop for a path or
    raises an exception. *)
Record services : Type := {
  post : string -> reply;
  save_error : string -> list Z -> option exn
}.

(** ** The state and exception monad *)

(** What a computation gives: its value or the exception raised, the world
    it leaves, and the output operations it performed, oldest first. *)
Record outcome (A : Type) : Type := {
  res : result A;
  final : world;
  trace : list event
}.
Arguments res {A} o.
Arguments final {A} o.
Arguments trace {A} o.

(** A computation: from the world it starts in to its outcome. *)
Definition M (A : Type) : Type := world -> outcome A.

Definition ret {A : Type} (a : A) : M A :=
  fun w => {| res := Ok a; final := w; trace := [] |}.

Definition raise {A : Type} (e : exn) : M A :=
  fun w => {| res := Raise e; final := w; trace := [] |}.

(** Sequencing: an exception ends the computation, and what was done
    before it stays done. *)
Definition bind {A B : Type} (m : M A) (k : A -> M B) : M B :=
  fun w =>
    let o := m w in
    match res o with
    | Ok a =>
        let o' := k a (final o) in
        {| res := res o'; final := final o'; trace := trace o ++ trace o' |}
    | Raise e => {| res := Raise e; final := final o; trace := trace o |}
    end.

(** A pure step. *)
Definition lift {A : Type} (r : result A) : M A :=
  match r with
  | Ok a => ret a
  | Raise e => raise e
  end.

(** An output operation that succeeds and leaves the world [w']. *)
Definition emit (ev : event) (w' : world) : M unit :=
  fun _ => {| res := Ok tt; final := w'; trace := [ev] |}.

Notation "x <- m ;; k" := (bind m (fun x => k))
  (at level 100, m at next level, right associativity).
Notation "m ;;; k" := (bind m (fun _ => k))
  (at level 100, right associativity).

(** ** File-system operations *)

(** [os.path.isdir], a regular file at a path, and [os.path.exists]. *)
Definition isdir (w : world) (p : string) : bool := bool_decide (p ∈ fs_dirs w).

Definition isfile (w : world) (p : string) : bool :=
  bool_decide (is_Some (fs_files w !! p)).

Definition path_exists (w : world) (p : string) : bool := isdir w p || isfile w p.

(** Whether a file can be created at [p]: [p] is not a directory and the
    directory it goes into exists (the current directory, an empty
    [dirname], always does). *)
Definition writable (w : world) (p : string) : result unit :=
  if isdir w p then Raise OSError
  else if String.eqb (dirname p) "" || isdir w (dirname p) then Ok tt
  else if isfile w (dirname p) then Raise OSError
  else Raise FileNotFoundError.

(** [os.makedirs(p)]: fails when [p] exists, else creates [p] and the
    ancestors that are missing. *)
Definition makedirs (p : string) : M unit :=
  fun w =>
    if String.eqb p "" then raise FileNotFoundError w
    else if path_exists w p then raise FileExistsError w
    else if existsb (isfile w) (ancestors p) then raise OSError w
    else emit (MakeDirs p)
           {| fs_dirs := fs_dirs w ∪ list_to_set (ancestors p) ∪ {[p]};
              fs_files := fs_files w;
              labels_open := labels_open w |} w.

(** The name of [key] as an entry of directory [p], when it is one. *)
Definition entry_of (p key : string) : option string :=
  match strip_prefix (path_join p "") key with
  | Some n => if String.eqb n "" || contains "/" n then None else Some n
  | None => None
  end.

(** [os.listdir(p)]: the names of the files and directories in [p], in the
    order the file system gives them. *)
Definition listdir (p : string) : M (list string) :=
  fun w =>
    if isdir w p
    then ret (omap (entry_of p) (elements (fs_dirs w ∪ dom (fs_files w)))) w
    else raise (if isfile w p then OSError else FileNotFoundError) w.

(** Opening a file for reading and reading it all. *)
Definition read_file (p : string) : M content :=
  fun w =>
    match fs_files w !! p with
    | Some c => ret c w
    | None => raise (if isdir w p then OSError else FileNotFoundError) w
    end.

(** Opening a file for writing, writing [c] and closing it. *)
Definition write_file (p : string) (c : content) (ev : event) : M unit :=
  fun w =>
    match writable w p with
    | Ok _ => emit ev {| fs_dirs := fs_dirs w;
                         fs_files := <[p := c]> (fs_files w);
                         labels_open := labels_open w |} w
    | Raise e => raise e w
    end.

(** [labels = open(p, "w", encoding="utf8")]: the handle is the path. *)
Definition open_labels (p : string) : M string :=
  fun w =>
    match writable w p with
    | Ok _ => {| res := Ok p;
                 final := {| fs_dirs := fs_dirs w;
                             fs_files := <[p := Text ""]> (fs_files w);
                             labels_open := true |};
                 trace := [OpenLabels p] |}
    | Raise e => raise e w
    end.

Definition append_text (text : string) (c : content) : content :=
  match c with
  | Text s => Text (s +:+ text)
  | other => other
  end.

(** [labels.write(text)]; the text goes to the file at once, buffering is
    not modelled. *)
Definition labels_write (labels text : string) : M unit :=
  fun w => emit (WriteLabels text)
             {| fs_dirs := fs_dirs w;
                fs_files := alter (append_text text) labels (fs_files w);
                labels_open := labels_open w |} w.

(** [labels.close()] *)
Definition labels_close (labels : string) : M unit :=
  fun w => emit CloseLabels
             {| fs_dirs := fs_dirs w;
                fs_files := fs_files w;
                labels_open := false |} w.

(** [Image.open(p)], giving [img.size = (width, height)]. *)
Definition image_open (p : string) : M (Z * Z) :=
  c <- read_file p ;;
  match c with
  | Image width height => ret (width, height)
  | _ => raise OSError
  end.

(** [with open(p) as f: json.load(f)] *)
Definition load_clova (p : string) : M clova :=
  c <- read_file p ;;
  match c with
  | ClovaJson r => ret r
  | LabelmeJson _ => ret NoFields
  | _ => raise ValueError
  end.

(** The image [img.crop(bbox)] gives. *)
Definition crop_of (bbox : list Z) : content :=
  match bbox with
  | [l; u; r; d] => Image (r - l) (d - u)
  | _ => Image 0 0
  end.

(** [img.crop(bbox).save(p)] *)
Definition save_crop (sv : services) (p : string) (bbox : list Z) : M unit :=
  match save_error sv p bbox with
  | None => write_file p (crop_of bbox) (SaveCrop p bbox)
  | Some e => raise e
  end.

(** [shutil.copy(src, dst)], [dst] not being a directory. *)
Definition copy_file (src dst : string) : M unit :=
  c <- read_file src ;;
  write_file dst c (CopyFile src dst).

(** ** The program *)

(** The parsed command line ([clova_api_url] and [clova_secret_key] only
    reach the recognition service). *)
Record args : Type := {
  input_path : string;
  output_path : string;
  min_image_size : Z
}.

(** The two [sys.exit] messages, with the path as given. *)
Definition cannot_find (p : string) : string := "Can't find '" +:+ p +:+ "' directory.".
Definition already_exists (p : string) : string := "'" +:+ p +:+ "' directory is already exists.".

Fixpoint make_sub_dirs (root : string) (sub_dirs dirs : list string) : M (list string) :=
  match sub_dirs with
  | [] => ret dirs
  | sub :: rest =>
      let path := path_join root sub in
      makedirs path ;;;
      make_sub_dirs root rest (dirs ++ [path])
  end.

Definition create_working_directory (root : string) (sub_dirs : list string)
  : M (list string) :=
  makedirs root ;;;
  make_sub_dirs root sub_dirs [root].

(** The order of [file_list.sort()] on strings. *)
Definition str_le (s1 s2 : string) : Prop := String.leb s1 s2 = true.

#[local] Instance str_le_dec : RelDecision str_le.
Proof. intros s1 s2. unfold str_le. apply _. Defined.

Definition get_files (path except_file : string) : M (list string * nat) :=
  entries <- listdir path ;;
  let file_list :=
    List.filter (fun file => negb (starts_with "." file
                                   || String.eqb file (basename except_file)))
                entries in
  let file_list := merge_sort str_le file_list in
  ret (file_list, length file_list).

Definition request_recognition_from_clova_ocr
    (sv : services) (a : args) (subdir image_file : string) : M string :=
  name_ext <- lift (split_name_ext image_file) ;;
  read_file (path_join (input_path a) image_file) ;;;
  match post sv (path_join (input_path a) image_file) with
  | RequestFailed => raise OSError
  | BadJson => raise ValueError
  | Json r =>
      let json_file :=
        path_join (path_join (output_path a) subdir) (fst name_ext +:+ "_clova.json") in
      write_file json_file (ClovaJson r) (DumpClova json_file r) ;;;
      ret json_file
  end.

(** The body of [for jj, fields in enumerate(...)], from position [jj] on,
    with the [shapes] accumulated so far. *)
Fixpoint crop_fields (sv : services) (a : args) (dirs : list string)
    (labels name ext : string) (jj : nat) (fields : list field)
    (shapes : list shape) : M (list shape) :=
  match fields with
  | [] => ret shapes
  | f :: rest =>
      let label := inferText f in
      bbox <- lift (get_bbox (vertices f)) ;;
      valid <- lift (valid_crop_size bbox (min_image_size a)) ;;
      if negb valid then crop_fields sv a dirs labels name ext (S jj) rest shapes
      else
        let cropped_file := cropped_file name ext jj in
        d2 <- lift (index dirs 2) ;;
        save_crop sv (path_join (path_join (output_path a) d2) cropped_file) bbox ;;;
        labels_write labels (label_record cropped_file label) ;;;
        b0 <- lift (index bbox 0) ;;
        b1 <- lift (index bbox 1) ;;
        b2 <- lift (index bbox 2) ;;
        b3 <- lift (index bbox 3) ;;
        let shapes_dict :=
          {| label := label;
             points := [[b0; b1]; [b2; b3]];
             group_id := None;
             shape_type := "rectangle";
             flags := [] |} in
        crop_fields sv a dirs labels name ext (S jj) rest (shapes ++ [shapes_dict])
  end.

(** The body of [for ii, file_name in enumerate(files)]. *)
Definition process_file (sv : services) (a : args) (dirs : list string)
    (labels file_name : string) : M unit :=
  name_ext <- lift (split_name_ext file_name) ;;
  let name := fst name_ext in
  let ext := snd name_ext in
  d1 <- lift (index dirs 1) ;;
  clova_json_file <- request_recognition_from_clova_ocr sv a d1 file_name ;;
  json_data <- load_clova clova_json_file ;;
  size <- image_open (path_join (input_path a) file_name) ;;
  fields <- lift (match json_data with
                  | Fields fields => Ok fields
                  | NoFields => Raise KeyError
                  end) ;;
  shapes <- crop_fields sv a dirs labels name ext 0 fields [] ;;
  let json_dict :=
    {| version := "4.5.9";
       doc_shape_type := "rectangle";
       doc_flags := [];
       shapes := shapes;
       imagePath := file_name;
       imageData := None;
       imageHeight := snd size;
       imageWidth := fst size |} in
  d3 <- lift (index dirs 3) ;;
  copy_file (path_join (input_path a) file_name) (path_join d3 file_name) ;;;
  write_file (path_join d3 (name +:+ ".json")) (LabelmeJson json_dict)
             (DumpLabelme (path_join d3 (name +:+ ".json")) json_dict).

Fixpoint process_files (sv : services) (a : args) (dirs : list string)
    (labels : string) (files : list string) : M unit :=
  match files with
  | [] => ret tt
  | file_name :: rest =>
      process_file sv a dirs labels file_name ;;;
      process_files sv a dirs labels rest
  end.

(** [run(args)]; the progress and timing output is left out. *)
Definition run (sv : services) (a : args) : M unit :=
  fun w =>
    if negb (path_exists w (input_path a))
    then raise (SystemExit (cannot_find (input_path a))) w
    else
      (dirs <- (fun w' =>
                  if isdir w' (output_path a)
                  then raise (SystemExit (already_exists (output_path a))) w'
                  else create_working_directory (output_path a)
                         ["recognized"; "cropped"; "converted"] w') ;;
       files_count <- get_files (input_path a) "" ;;
       d2 <- lift (index dirs 2) ;;
       labels <- open_labels
                   (path_join (path_join (output_path a) d2) "labels.txt") ;;
       process_files sv a dirs labels (fst files_count) ;;;
       labels_close labels) w.

(** ** Specification vocabulary *)

(** [m] is the least (greatest) element of [l]. *)
Definition is_min (l : list Z) (m : Z) : Prop := m ∈ l /\ forall v, v ∈ l -> m <= v.

Definition is_max (l : list Z) (m : Z) : Prop := m ∈ l /\ forall v, v ∈ l -> v <= m.

Fixpoint count_char (c : ascii) (s : string) : nat :=
  match s with
  | EmptyString => O
  | String a s' => (if Ascii.eqb a c then 1 else 0) + count_char c s'
  end.

(** The pieces hold no separator, and joined by it they give the string
    back. *)
Fixpoint join_with (sep : ascii) (pieces : list string) : string :=
  match pieces with
  | [] => EmptyString
  | [p] => p
  | p :: rest => p +:+ String sep (join_with sep rest)
  end.

(** Reading a decimal numeral back. *)
Definition parse_nat (s : string) : option nat :=
  option_map Nat.of_uint (NilEmpty.uint_of_string s).

(** The ten characters [format_03d] writes. *)
Definition is_digit (c : ascii) : bool := contains c "0123456789".

(** The world once [c] is written to [p]. *)
Definition with_file (w : world) (p : string) (c : content) : world :=
  {| fs_dirs := fs_dirs w; fs_files := <[p := c]> (fs_files w); labels_open := labels_open w |}.

(** The world once [labels] is open on [p]. *)
Definition opened (w : world) (p : string) : world :=
  {| fs_dirs := fs_dirs w; fs_files := <[p := Text ""]> (fs_files w); labels_open := true |}.

(** The world once [labels] is closed. *)
Definition closed (w : world) : world :=
  {| fs_dirs := fs_dirs w; fs_files := fs_files w; labels_open := false |}.

(** The crop paths, the label records and the LabelMe documents of a trace,
    each in the order of the trace. *)
Definition crop_seq (t : list event) : list string :=
  omap (fun ev => match ev with SaveCrop p _ => Some p | _ => None end) t.

Definition label_texts (t : list event) : list string :=
  omap (fun ev => match ev with WriteLabels s => Some s | _ => None end) t.

Definition documents (t : list event) : list labelme :=
  omap (fun ev => match ev with DumpLabelme _ doc => Some doc | _ => None end) t.

(** The fields the filter lets through, each with its position in the
    list (counted from [jj]) and its box. *)
Fixpoint accepted (size : Z) (jj : nat) (fields : list field) : list (nat * field * list Z) :=
  match fields with
  | [] => []
  | f :: rest =>
      match get_bbox (vertices f) with
      | Ok bbox =>
          match valid_crop_size bbox size with
          | Ok true => (jj, f, bbox) :: accepted size (S jj) rest
          | _ => accepted size (S jj) rest
          end
      | Raise _ => accepted size (S jj) rest
      end
  end.

(** The position of an accepted field. *)
Definition position (c : nat * field * list Z) : nat := fst (fst c).

(** Where the crops of a run go: [os.path.join(args.output_path, dirs[2], ...)]. *)
Definition crop_path (a : args) (dirs : list string) (cropped : string) : string :=
  path_join (path_join (output_path a) (default "" (dirs !! 2%nat))) cropped.

(** The two output operations and the shape of an accepted field. *)
Definition crop_events (a : args) (dirs : list string) (name ext : string)
    (c : nat * field * list Z) : list event :=
  let cropped := cropped_file name ext (fst (fst c)) in
  [SaveCrop (crop_path a dirs cropped) (snd c);
   WriteLabels (label_record cropped (inferText (snd (fst c))))].

Definition shape_of (c : nat * field * list Z) : shape :=
  {| label := inferText (snd (fst c));
     points := match snd c with
               | [l; u; r; d] => [[l; u]; [r; d]]
               | _ => []
               end;
     group_id := None;
     shape_type := "rectangle";
     flags := [] |}.

(** The crop path and the label record of an accepted field. *)
Definition crop_path_of (a : args) (dirs : list string) (name ext : string)
    (c : nat * field * list Z) : string :=
  crop_path a dirs (cropped_file name ext (position c)).

Definition record_of (name ext : string) (c : nat * field * list Z) : string :=
  label_record (cropped_file name ext (position c)) (inferText (snd (fst c))).

(** The fields the service returns for an input file. *)
Definition recognized (sv : services) (a : args) (file_name : string) : list field :=
  match post sv (path_join (input_path a) file_name) with
  | Json (Fields fields) => fields
  | _ => []
  end.

(** The crop paths of one input file: one for each accepted field of its
    recognition result, none when the file name does not split. *)
Definition crop_paths_of_file (sv : services) (a : args) (dirs : list string)
    (file_name : string) : list string :=
  match split_name_ext file_name with
  | Ok (name, ext) =>
      map (crop_path_of a dirs name ext)
          (accepted (min_image_size a) 0 (recognized sv a file_name))
  | Raise _ => []
  end.

(** [m] takes every world to one related to it by [R]. *)
Definition preserves (R : world -> world -> Prop) {A : Type} (m : M A) : Prop :=
  forall w, R w (final (m w)).

(** The file system only grows: no operation of the program removes a
    directory or a file. *)
Definition grows (w w' : world) : Prop :=
  fs_dirs w ⊆ fs_dirs w' /\ dom (fs_files w) ⊆ dom (fs_files w').

(** The state of the [labels] handle is the same before and after. *)
Definition same_handle (w w' : world) : Prop := labels_open w' = labels_open w.

(** What [get_files] guarantees of the names it returns: no name twice, no
    ["/"] in a name, and each the name of an entry of [path]. *)
Definition listing_ok (w : world) (path : string) (files : list string) : Prop :=
  NoDup files /\
  forall f, f ∈ files ->
    contains "/" f = false /\ (path_join path "" +:+ f) ∈ fs_dirs w ∪ dom (fs_files w).

(** The operations that make the working directories. *)
Definition setup (ev : event) : Prop :=
  match ev with
  | MakeDirs _ => True
  | _ => False
  end.

(** What [run] does once the working directories are there. *)
Definition batch (sv : services) (a : args) (dirs : list string) : M unit :=
  files_count <- get_files (input_path a) "" ;;
  d2 <- lift (index dirs 2) ;;
  labels <- open_labels (path_join (path_join (output_path a) d2) "labels.txt") ;;
  process_files sv a dirs labels (fst files_count) ;;;
  labels_close labels.








(** ** Example inputs *)

(** The four corners of a [width] by [height] rectangle at the origin. *)
Definition quad (width height : Z) : list point :=
  [ {| x := 0; y := 0 |}; {| x := width; y := 0 |};
    {| x := width; y := height |}; {| x := 0; y := height |} ].

(** A service that finds three fields in every image, the second one
    5 by 5. *)
Definition three_fields : services :=
  {| post := fun _ => Json (Fields [ {| inferText := "abcd"; vertices := quad 30 40 |};
                                     {| inferText := "xx"; vertices := quad 5 5 |};
                                     {| inferText := "efgh"; vertices := quad 20 16 |} ]);
     save_error := fun _ _ => None |}.

(** An input directory with one image, and nothing at the output path. *)
Definition one_image : world :=
  {| fs_dirs := {[ "/"; "/in" ]};
     fs_files := {[ "/in/0000000001.png" := Image 100 80 ]};
     labels_open := false |}.

(** [--input_path /in --output_path /out], with the default
    [--min_image_size]. *)
Definition in_out : args :=
  {| input_path := "/in"; output_path := "/out"; min_image_size := 16 |}.

(** What [create_working_directory] returns for them. *)
Definition out_dirs : list string :=
  ["/out"; "/out/recognized"; "/out/cropped"; "/out/converted"].

(** The world [run] has reached when it starts on the first image. *)
Definition one_image_opened : world :=
  {| fs_dirs := {[ "/"; "/in"; "/out"; "/out/recognized"; "/out/cropped"; "/out/converted" ]};
     fs_files := {[ "/in/0000000001.png" := Image 100 80;
                    "/out/cropped/labels.txt" := Text "" ]};
     labels_open := true |}.


(** A recognition result whose second field has no vertices. *)
Definition no_vertices : services :=
  {| post := fun _ => Json (Fields [ {| inferText := "abcd"; vertices := quad 30 40 |};
                                     {| inferText := "efgh"; vertices := [] |} ]);
     save_error := fun _ _ => None |}.


(** An input directory with an image and a file whose name has no dot. *)
Definition image_and_notes : world :=
  {| fs_dirs := {[ "/"; "/in" ]};
     fs_files := {[ "/in/0000000001.png" := Image 100 80; "/in/notes" := Text "to do" ]};
     labels_open := false |}.

(** ** More vocabulary *)

(** A point and a box moved by [(dx, dy)]. *)
Definition translate (dx dy : Z) (p : point) : point :=
  {| x := x p + dx; y := y p + dy |}.


(** What the field loop does with one polygon: the box, then the filter. *)
Definition accepts (size : Z) (points : list point) : result bool :=
  let? bbox := get_bbox points in valid_crop_size bbox size.

(** The LabelMe document [process_file] builds for [file_name] from the
    accepted fields and the size of the image. *)
Definition document_of (file_name : string) (acc : list (nat * field * list Z))
    (size : Z * Z) : labelme :=
  {| version := "4.5.9";
     doc_shape_type := "rectangle";
     doc_flags := [];
     shapes := map shape_of acc;
     imagePath := file_name;
     imageData := None;
     imageHeight := snd size;
     imageWidth := fst size |}.

(** How far the processing of one image got, read off its outcome: it
    stopped before the reply of the service was written; or after, inside
    or right after the field loop; or after the copy of the image; or it
    wrote the document and returned. *)
Definition image_outcome (sv : services) (a : args) (dirs : list string)
    (file_name name ext : string) (w : world) (o : outcome unit) : Prop :=
  let acc := accepted (min_image_size a) 0 (recognized sv a file_name) in
  let full := flat_map (crop_events a dirs name ext) acc in
  (exists e, o = raise e w) \/
  exists json_file r,
    post sv (path_join (input_path a) file_name) = Json r /\
    ((exists e t, res o = Raise e /\ trace o = DumpClova json_file r :: t /\
                  t `prefix_of` full) \/
     (exists e dst, res o = Raise e /\
        trace o = (DumpClova json_file r :: full
                   ++ [CopyFile (path_join (input_path a) file_name) dst])%list) \/
     (exists d3 size,
        dirs !! 3%nat = Some d3 /\
        fs_files (with_file w json_file (ClovaJson r)) !! path_join (input_path a) file_name
          = Some (Image (fst size) (snd size)) /\
        res o = Ok tt /\
        trace o = (DumpClova json_file r :: full
                   ++ [CopyFile (path_join (input_path a) file_name) (path_join d3 file_name);
                       DumpLabelme (path_join d3 (name +:+ ".json"))
                                   (document_of file_name acc size)])%list)).

(** The operations of the processing of an image. *)
Definition image_event (ev : event) : Prop :=
  match ev with
  | DumpClova _ _ | SaveCrop _ _ | WriteLabels _ | CopyFile _ _ | DumpLabelme _ _ => True
  | _ => False
  end.

(** How far a run got, read off its outcome: it stopped before [labels] was
    open, having at most made directories; or it opened [labels] and went
    through the listing, to the end or to the first exception. *)
Definition run_outcome (sv : services) (a : args) (w : world) (o : outcome unit) : Prop :=
  (exists e, res o = Raise e /\ Forall setup (trace o) /\
             labels_open (final o) = labels_open w) \/
  exists t0 dirs labels files w1,
    let w0 := final (create_working_directory (output_path a)
                       ["recognized"; "cropped"; "converted"] w) in
    let p := process_files sv a dirs labels files w1 in
    Forall setup t0 /\
    dirs = output_path a
           :: map (path_join (output_path a)) ["recognized"; "cropped"; "converted"] /\
    listing_ok w0 (input_path a) files /\ labels_open w1 = true /\
    ((res p = Ok tt /\
      o = {| res := Ok tt; final := closed (final p);
             trace := t0 ++ OpenLabels labels :: trace p ++ [CloseLabels] |}) \/
     (exists e, res p = Raise e /\
        o = {| res := Raise e; final := final p;
               trace := t0 ++ OpenLabels labels :: trace p |})).

(** [--input_path /in/0000000001.png]: the input path names a file. *)
Definition file_in : args :=
  {| input_path := "/in/0000000001.png"; output_path := "/out"; min_image_size := 16 |}.


(** * Properties *)

Example get_bbox_quad :
  get_bbox [ {| x := 0; y := 0 |}; {| x := 30; y := 0 |};
             {| x := 30; y := 40 |}; {| x := 0; y := 40 |} ] = Ok [0; 0; 30; 40].
Proof. reflexivity. Qed.

Example valid_crop_size_spec5 :
  valid_crop_size [10; 10; 50; 60] 16 = Ok true /\
  valid_crop_size [10; 10; 20; 15] 16 = Ok false.
Proof. split; reflexivity. Qed.

Example cropped_file_7 : cropped_file "0000000001" "png" 7 = "0000000001_007.png".
Proof. reflexivity. Qed.

Example cropped_file_1234 : cropped_file "a" "png" 1234 = "a_1234.png".
Proof. reflexivity. Qed.

Example split_examples :
  split "." "a.png" = ["a"; "png"] /\ split "." "a.tar.gz" = ["a"; "tar"; "gz"] /\
  split "." "README" = ["README"] /\ split "." "a." = ["a"; ""].
Proof. repeat split; reflexivity. Qed.

(** ** Bounding boxes *)

Lemma min_from_is_min (l : list Z) : forall m, is_min (m :: l) (min_from m l).
Proof.
  induction l as [|v l IH]; intros m; simpl.
  - split; [left | intros v Hv]. apply list_elem_of_singleton in Hv. lia.
  - destruct (IH (if v <? m then v else m)) as [Hin Hle]. split.
    + apply elem_of_cons in Hin as [-> | Hin].
      * destruct (v <? m); [right; left | left].
      * right; right; exact Hin.
    + intros u Hu. assert (Hc : (if v <? m then v else m) <= m /\ (if v <? m then v else m) <= v)
        by (destruct (Z.ltb_spec v m); lia).
      pose proof (Hle _ ltac:(left)) as H0.
      apply elem_of_cons in Hu as [-> | Hu]; [lia |].
      apply elem_of_cons in Hu as [-> | Hu]; [lia |].
      apply Hle; right; exact Hu.
Qed.

Lemma max_from_is_max (l : list Z) : forall m, is_max (m :: l) (max_from m l).
Proof.
  induction l as [|v l IH]; intros m; simpl.
  - split; [left | intros v Hv]. apply list_elem_of_singleton in Hv. lia.
  - destruct (IH (if v >? m then v else m)) as [Hin Hle]. split.
    + apply elem_of_cons in Hin as [-> | Hin].
      * destruct (v >? m); [right; left | left].
      * right; right; exact Hin.
    + intros u Hu. assert (Hc : m <= (if v >? m then v else m) /\ v <= (if v >? m then v else m))
        by (rewrite Z.gtb_ltb; destruct (Z.ltb_spec m v); lia).
      pose proof (Hle _ ltac:(left)) as H0.
      apply elem_of_cons in Hu as [-> | Hu]; [lia |].
      apply elem_of_cons in Hu as [-> | Hu]; [lia |].
      apply Hle; right; exact Hu.
Qed.

Lemma is_min_unique (l : list Z) (m m' : Z) : is_min l m -> is_min l m' -> m = m'.
Proof. intros [Hi Hl] [Hi' Hl']. apply Hl in Hi'. apply Hl' in Hi. lia. Qed.

Lemma is_max_unique (l : list Z) (m m' : Z) : is_max l m -> is_max l m' -> m = m'.
Proof. intros [Hi Hl] [Hi' Hl']. apply Hl in Hi'. apply Hl' in Hi. lia. Qed.

Lemma is_min_same_elements (l l' : list Z) (m : Z) :
  (forall v, v ∈ l <-> v ∈ l') -> is_min l m -> is_min l' m.
Proof. intros He [Hi Hl]. split; [by apply He | intros v Hv; apply Hl; by apply He]. Qed.

Lemma is_max_same_elements (l l' : list Z) (m : Z) :
  (forall v, v ∈ l <-> v ∈ l') -> is_max l m -> is_max l' m.
Proof. intros He [Hi Hl]. split; [by apply He | intros v Hv; apply Hl; by apply He]. Qed.

(** On a polygon with a point, [get_bbox] returns the four extrema. *)
Lemma get_bbox_extrema (p : point) (ps : list point) :
  exists l u r d,
    get_bbox (p :: ps) = Ok [l; u; r; d] /\
    is_min (map x (p :: ps)) l /\ is_min (map y (p :: ps)) u /\
    is_max (map x (p :: ps)) r /\ is_max (map y (p :: ps)) d.
Proof.
  exists (min_from (x p) (map x ps)), (min_from (y p) (map y ps)),
         (max_from (x p) (map x ps)), (max_from (y p) (map y ps)).
  split; [reflexivity |].
  repeat split; try apply min_from_is_min; try apply max_from_is_max.
Qed.

(** The box [get_bbox] returns has [left <= right] and [upper <= lower]. *)
Lemma get_bbox_ordered (points : list point) (l u r d : Z) :
  get_bbox points = Ok [l; u; r; d] -> l <= r /\ u <= d.
Proof.
  destruct points as [|p ps]; [discriminate |].
  destruct (get_bbox_extrema p ps) as (l' & u' & r' & d' & E & Hl & Hu & Hr & Hd).
  rewrite E. intros [= <- <- <- <-].
  split; [apply Hl, Hr | apply Hu, Hd].
Qed.

Lemma get_bbox_length (points : list point) (bbox : list Z) :
  get_bbox points = Ok bbox -> exists l u r d, bbox = [l; u; r; d].
Proof.
  destruct points as [|p ps]; [discriminate |].
  intros [= <-]. eauto.
Qed.

(** C1: for every polygon [P] with a point, [get_bbox P] is the box
    [[left; upper; right; lower]] with [left] and [upper] the least x and y
    over the points and [right] and [lower] the greatest; any [Q] with the
    same points, in whatever order and however often repeated, gets the same
    box.  The result depends on the points alone. *)
Theorem get_bbox_min_max (P Q : list point) :
  P <> [] ->
  (forall p, p ∈ P <-> p ∈ Q) ->
  exists left upper right lower,
    get_bbox P = Ok [left; upper; right; lower] /\
    get_bbox Q = Ok [left; upper; right; lower] /\
    is_min (map x P) left /\ is_min (map y P) upper /\
    is_max (map x P) right /\ is_max (map y P) lower.
Proof.
  intros HP Hsame.
  destruct P as [|p ps]; [congruence |].
  destruct Q as [|q qs]; [exfalso; eapply not_elem_of_nil, Hsame; left |].
  destruct (get_bbox_extrema p ps) as (l & u & r & d & E & Hl & Hu & Hr & Hd).
  destruct (get_bbox_extrema q qs) as (l' & u' & r' & d' & E' & Hl' & Hu' & Hr' & Hd').
  assert (Hx : forall v, v ∈ map x (p :: ps) <-> v ∈ map x (q :: qs)).
  { intros v. rewrite !list_elem_of_fmap. split; intros (t & -> & Ht); exists t;
      (split; [reflexivity | by apply Hsame]). }
  assert (Hy : forall v, v ∈ map y (p :: ps) <-> v ∈ map y (q :: qs)).
  { intros v. rewrite !list_elem_of_fmap. split; intros (t & -> & Ht); exists t;
      (split; [reflexivity | by apply Hsame]). }
  exists l, u, r, d. rewrite E, E'.
  rewrite (is_min_unique _ _ _ (is_min_same_elements _ _ _ Hx Hl) Hl').
  rewrite (is_min_unique _ _ _ (is_min_same_elements _ _ _ Hy Hu) Hu').
  rewrite (is_max_unique _ _ _ (is_max_same_elements _ _ _ Hx Hr) Hr').
  rewrite (is_max_unique _ _ _ (is_max_same_elements _ _ _ Hy Hd) Hd').
  repeat split; try reflexivity;
    first [ eapply is_min_same_elements; [symmetry; apply Hx | done]
          | eapply is_min_same_elements; [symmetry; apply Hy | done]
          | eapply is_max_same_elements; [symmetry; apply Hx | done]
          | eapply is_max_same_elements; [symmetry; apply Hy | done] ].
Qed.

Lemma get_bbox_min_max_witness :
  exists left upper right lower,
    get_bbox [ {| x := 3; y := 9 |}; {| x := 7; y := 2 |}; {| x := 3; y := 9 |} ]
      = Ok [left; upper; right; lower] /\
    get_bbox [ {| x := 7; y := 2 |}; {| x := 3; y := 9 |} ]
      = Ok [left; upper; right; lower] /\
    is_min (map x [ {| x := 3; y := 9 |}; {| x := 7; y := 2 |}; {| x := 3; y := 9 |} ]) left /\
    is_min (map y [ {| x := 3; y := 9 |}; {| x := 7; y := 2 |}; {| x := 3; y := 9 |} ]) upper /\
    is_max (map x [ {| x := 3; y := 9 |}; {| x := 7; y := 2 |}; {| x := 3; y := 9 |} ]) right /\
    is_max (map y [ {| x := 3; y := 9 |}; {| x := 7; y := 2 |}; {| x := 3; y := 9 |} ]) lower.
Proof.
  apply (get_bbox_min_max
           [ {| x := 3; y := 9 |}; {| x := 7; y := 2 |}; {| x := 3; y := 9 |} ]
           [ {| x := 7; y := 2 |}; {| x := 3; y := 9 |} ]).
  - discriminate.
  - intros p. rewrite !elem_of_cons, !elem_of_nil. tauto.
Defined.

(** C6: on the empty polygon [get_bbox] fails: [min] of an empty sequence
    raises [ValueError], the code's error for an invalid polygon. *)
Theorem get_bbox_empty : get_bbox [] = Raise ValueError.
Proof. reflexivity. Qed.

(** ** The size filter *)

Lemma valid_crop_size_eq (l u r d size : Z) :
  valid_crop_size [l; u; r; d] size = Ok (negb ((r - l <? size) || (d - u <? size))).
Proof.
  unfold valid_crop_size; simpl.
  destruct (r - l <? size); [reflexivity |]. simpl.
  destruct (d - u <? size); reflexivity.
Qed.

(** C2: [valid_crop_size] returns [False] exactly when the width
    [right - left] or the height [lower - upper] is below [size], and
    [True] otherwise; so a box with [left = right] or [upper = lower] is
    rejected by every [size > 0]. *)
Theorem valid_crop_size_rejects (left upper right lower size : Z) :
  (valid_crop_size [left; upper; right; lower] size = Ok false <->
     right - left < size \/ lower - upper < size) /\
  (valid_crop_size [left; upper; right; lower] size = Ok true <->
     ~ (right - left < size \/ lower - upper < size)) /\
  (0 < size -> left = right \/ upper = lower ->
     valid_crop_size [left; upper; right; lower] size = Ok false).
Proof.
  rewrite valid_crop_size_eq.
  destruct (Z.ltb_spec (right - left) size), (Z.ltb_spec (lower - upper) size); simpl;
    repeat split; intros; try discriminate; try reflexivity; try lia.
Qed.

Lemma valid_crop_size_rejects_witness :
  valid_crop_size [4; 7; 4; 90] 1 = Ok false /\
  valid_crop_size [4; 7; 50; 7] 16 = Ok false.
Proof.
  split.
  - apply (valid_crop_size_rejects 4 7 4 90 1); [lia | left; reflexivity].
  - apply (valid_crop_size_rejects 4 7 50 7 16); [lia | right; reflexivity].
Defined.

(** C8: for a fixed [size], a box at least as wide and at least as high as
    an accepted box is accepted. *)
Theorem valid_crop_size_monotone
    (la ua ra da lb ub rb db size : Z) :
  rb - lb <= ra - la ->
  db - ub <= da - ua ->
  valid_crop_size [lb; ub; rb; db] size = Ok true ->
  valid_crop_size [la; ua; ra; da] size = Ok true.
Proof.
  rewrite !valid_crop_size_eq. intros Hw Hh [= HB]. f_equal.
  apply negb_true_iff, orb_false_iff in HB as [H1 H2].
  apply Z.ltb_ge in H1, H2.
  apply negb_true_iff, orb_false_iff. split; apply Z.ltb_ge; lia.
Qed.

Lemma valid_crop_size_monotone_witness :
  valid_crop_size [0; 0; 40; 50] 16 = Ok true.
Proof.
  apply (valid_crop_size_monotone 0 0 40 50 10 10 30 26 16); [lia | lia | reflexivity].
Defined.



(** ** Strings *)

Lemma contains_app (c : ascii) (s t : string) :
  contains c (s +:+ t) = contains c s || contains c t.
Proof. induction s as [|a s IH]; simpl; [reflexivity |]. rewrite IH. apply orb_assoc. Qed.

Lemma count_char_app (c : ascii) (s t : string) :
  count_char c (s +:+ t) = (count_char c s + count_char c t)%nat.
Proof. induction s as [|a s IH]; simpl; [reflexivity |]. rewrite IH. lia. Qed.

Lemma count_char_0 (c : ascii) (s : string) :
  count_char c s = O <-> contains c s = false.
Proof.
  induction s as [|a s IH]; simpl; [tauto |].
  destruct (Ascii.eqb a c); simpl; [split; [lia | discriminate] | exact IH].
Qed.

Lemma string_app_inv_head (a s t : string) : a +:+ s = a +:+ t -> s = t.
Proof. induction a as [|c a IH]; simpl; [auto |]. intros [= H]. auto. Qed.

Lemma string_app_cons (h : ascii) (a b : string) :
  String h a +:+ b = String h (a +:+ b).
Proof. reflexivity. Qed.

Lemma string_app_assoc (a b c : string) : (a +:+ b) +:+ c = a +:+ b +:+ c.
Proof.
  induction a as [|h a IH]; [reflexivity |].
  rewrite !string_app_cons. f_equal. exact IH.
Qed.

(** A string is cut in one way at the first occurrence of a character. *)
Lemma cut_at_first (c : ascii) (a1 a2 b1 b2 : string) :
  contains c a1 = false -> contains c a2 = false ->
  a1 +:+ String c b1 = a2 +:+ String c b2 -> a1 = a2 /\ b1 = b2.
Proof.
  revert a2. induction a1 as [|h a1 IH]; intros [|h' a2]; simpl.
  - intros _ _ [= ->]. auto.
  - intros _ H [= <- _]. rewrite Ascii.eqb_refl in H. discriminate.
  - intros H _ [= -> _]. rewrite Ascii.eqb_refl in H. discriminate.
  - intros H1 H2 [= -> E]. apply orb_false_iff in H1 as [_ H1], H2 as [_ H2].
    destruct (IH _ H1 H2 E) as [-> ->]. auto.
Qed.

(** And in one way at the last occurrence. *)
Lemma cut_at_last (c : ascii) (a1 a2 b1 b2 : string) :
  contains c b1 = false -> contains c b2 = false ->
  a1 +:+ String c b1 = a2 +:+ String c b2 -> a1 = a2 /\ b1 = b2.
Proof.
  intros H1 H2. revert a2. induction a1 as [|h a1 IH]; intros [|h' a2]; simpl.
  - intros [= ->]. auto.
  - intros [= <- E]. rewrite E, contains_app in H1. simpl in H1.
    rewrite Ascii.eqb_refl, orb_true_r in H1. discriminate.
  - intros [= -> E]. rewrite <- E, contains_app in H2. simpl in H2.
    rewrite Ascii.eqb_refl, orb_true_r in H2. discriminate.
  - intros [= -> E]. destruct (IH _ E) as [-> ->]. auto.
Qed.

(** *** [split] *)

Lemma split_not_nil (sep : ascii) (s : string) : split sep s <> [].
Proof.
  induction s as [|c s IH]; simpl; [discriminate |].
  destruct (Ascii.eqb c sep); [discriminate |].
  destruct (split sep s); [congruence | discriminate].
Qed.

Lemma split_length (sep : ascii) (s : string) :
  length (split sep s) = S (count_char sep s).
Proof.
  induction s as [|c s IH]; simpl; [reflexivity |].
  destruct (Ascii.eqb c sep); simpl; [by rewrite IH |].
  pose proof (split_not_nil sep s).
  destruct (split sep s); [congruence | exact IH].
Qed.

Lemma split_pieces (sep : ascii) (s : string) :
  Forall (fun p => contains sep p = false) (split sep s).
Proof.
  induction s as [|c s IH]; simpl; [repeat constructor |].
  destruct (Ascii.eqb c sep) eqn:E; [constructor; [reflexivity | exact IH] |].
  destruct (split sep s) as [|h t]; [repeat constructor; simpl; by rewrite E |].
  inversion IH; subst. constructor; [simpl; by rewrite E | assumption].
Qed.

Lemma join_with_cons (sep h : ascii) (p : string) (rest : list string) :
  join_with sep (String h p :: rest) = String h (join_with sep (p :: rest)).
Proof. destruct rest; reflexivity. Qed.

Lemma join_split (sep : ascii) (s : string) : join_with sep (split sep s) = s.
Proof.
  induction s as [|c s IH]; [reflexivity |].
  pose proof (split_not_nil sep s) as Hne.
  cbn [split]. destruct (Ascii.eqb_spec c sep) as [-> | Hc].
  - destruct (split sep s) as [|h t]; [congruence |].
    change (join_with sep ("" :: h :: t)) with (String sep (join_with sep (h :: t))).
    by rewrite IH.
  - destruct (split sep s) as [|h t]; [congruence |].
    rewrite join_with_cons. by rewrite IH.
Qed.

Lemma split_name_ext_ok (file_name name ext : string) :
  split_name_ext file_name = Ok (name, ext) ->
  file_name = name +:+ "." +:+ ext /\
  contains "." name = false /\ contains "." ext = false.
Proof.
  unfold split_name_ext. intros H.
  pose proof (join_split "." file_name) as Hj.
  pose proof (split_pieces "." file_name) as Hp.
  destruct (split "." file_name) as [|n [|e [|? ?]]]; try discriminate.
  injection H as -> ->.
  apply Forall_cons in Hp as [Hn Hp]. apply Forall_cons in Hp as [He _].
  simpl in Hj. auto.
Qed.

Lemma split_name_ext_raise (file_name : string) (e : exn) :
  split_name_ext file_name = Raise e -> e = ValueError.
Proof.
  unfold split_name_ext.
  destruct (split "." file_name) as [|n [|x [|? ?]]]; congruence.
Qed.

(** C9, as the code has it: [name, ext = file_name.split('.')] gives a base
    name and an extension exactly for a file name with one dot, the text
    before and after it; a file name with no dot or with more than one
    raises [ValueError] and has no base name. *)
Theorem split_name_ext_one_dot (file_name : string) :
  match split_name_ext file_name with
  | Ok (name, ext) =>
      count_char "." file_name = 1%nat /\
      file_name = name +:+ "." +:+ ext /\
      contains "." name = false /\ contains "." ext = false
  | Raise e => e = ValueError /\ count_char "." file_name <> 1%nat
  end.
Proof.
  destruct (split_name_ext file_name) as [[name ext]|e] eqn:E.
  - split; [| by apply split_name_ext_ok].
    unfold split_name_ext in E. pose proof (split_length "." file_name) as Hl.
    destruct (split "." file_name) as [|n [|x [|? ?]]]; try discriminate.
    simpl in Hl. lia.
  - split; [by eapply split_name_ext_raise |].
    unfold split_name_ext in E. pose proof (split_length "." file_name) as Hl.
    destruct (split "." file_name) as [|n [|x [|? ?]]]; try discriminate; simpl in Hl; lia.
Qed.

(** C9, as stated, fails: a file name with two dots has no base name, the
    unpacking raises. *)
Lemma split_name_ext_two_dots :
  count_char "." "archive.tar.gz" = 2%nat /\
  split_name_ext "archive.tar.gz" = Raise ValueError /\
  ~ (exists ext, split_name_ext "archive.tar.gz" = Ok ("archive", ext)).
Proof.
  split; [reflexivity |]. split; [reflexivity |].
  intros [ext H]. vm_compute in H. discriminate.
Qed.

(** *** The [{jj:03d}] format and crop file names *)

Lemma parse_decimal (n : nat) : parse_nat (decimal n) = Some n.
Proof.
  unfold parse_nat, decimal. rewrite NilEmpty.usu. simpl.
  f_equal. apply DecimalNat.Unsigned.of_to.
Qed.

Lemma parse_zeros (k : nat) (s : string) : parse_nat (zeros k +:+ s) = parse_nat s.
Proof.
  induction k as [|k IH]; [reflexivity |].
  unfold parse_nat in *. cbn [zeros]. rewrite string_app_cons.
  cbn [NilEmpty.uint_of_string].
  destruct (NilEmpty.uint_of_string (zeros k +:+ s)) as [d|],
           (NilEmpty.uint_of_string s) as [d'|]; simpl in *; try congruence.
  rewrite <- IH. reflexivity.
Qed.

Lemma parse_format_03d (jj : nat) : parse_nat (format_03d jj) = Some jj.
Proof. unfold format_03d. rewrite parse_zeros. apply parse_decimal. Qed.

Lemma format_03d_inj (i j : nat) : format_03d i = format_03d j -> i = j.
Proof.
  intros H. pose proof (parse_format_03d i) as Hi. rewrite H, parse_format_03d in Hi.
  congruence.
Qed.

Lemma string_of_uint_digits (c : ascii) (d : Decimal.uint) :
  is_digit c = false -> contains c (NilEmpty.string_of_uint d) = false.
Proof.
  unfold is_digit. cbn [contains]. rewrite !orb_false_iff.
  intros (H0 & H1 & H2 & H3 & H4 & H5 & H6 & H7 & H8 & H9 & _).
  induction d; cbn [NilEmpty.string_of_uint contains]; [reflexivity | ..];
    rewrite IHd, orb_false_r; assumption.
Qed.

Lemma zeros_digits (c : ascii) (k : nat) : is_digit c = false -> contains c (zeros k) = false.
Proof.
  unfold is_digit. cbn [contains]. rewrite !orb_false_iff. intros (H0 & _).
  induction k as [|k IH]; cbn [zeros contains]; [reflexivity |]. by rewrite H0, IH.
Qed.

Lemma format_03d_digits (c : ascii) (jj : nat) :
  is_digit c = false -> contains c (format_03d jj) = false.
Proof.
  intros H. unfold format_03d. rewrite contains_app, zeros_digits by done.
  by apply string_of_uint_digits.
Qed.

Lemma string_length_app (s t : string) :
  String.length (s +:+ t) = (String.length s + String.length t)%nat.
Proof. induction s as [|a s IH]; [reflexivity |]. rewrite string_app_cons. simpl. by rewrite IH. Qed.

Lemma length_zeros (k : nat) : String.length (zeros k) = k.
Proof. induction k as [|k IH]; simpl; [reflexivity | by rewrite IH]. Qed.

(** The field is at least three characters wide, and exactly as wide as the
    digits of [jj] once there are three or more. *)
Lemma format_03d_length (jj : nat) :
  String.length (format_03d jj) = Nat.max 3 (String.length (decimal jj)).
Proof. unfold format_03d. rewrite string_length_app, length_zeros. lia. Qed.

(** A crop file name determines the base name, the extension and the
    sequence index it was built from. *)
Lemma cropped_file_inj (name ext name' ext' : string) (jj jj' : nat) :
  contains "." name = false -> contains "." name' = false ->
  cropped_file name ext jj = cropped_file name' ext' jj' ->
  name = name' /\ ext = ext' /\ jj = jj'.
Proof.
  intros Hn Hn'. unfold cropped_file.
  change (?a +:+ "_" +:+ ?f +:+ "." +:+ ?e) with (a +:+ "_" +:+ f +:+ String "." e).
  rewrite <- !(string_app_assoc _ "_"), <- !(string_app_assoc _ (format_03d _)).
  intros H. apply (cut_at_first ".") in H as [H ->].
  - change (?a +:+ "_") with (a +:+ String "_" "") in H.
    rewrite !string_app_assoc in H. cbn [String.append] in H.
    apply (cut_at_last "_") in H as [-> H]; try (by apply format_03d_digits).
    by apply format_03d_inj in H.
  - rewrite !contains_app, Hn. by rewrite format_03d_digits.
  - rewrite !contains_app, Hn'. by rewrite format_03d_digits.
Qed.


Lemma cropped_file_relative (name ext : string) (jj : nat) :
  starts_with "/" name = false ->
  starts_with "/" (cropped_file name ext jj) = false.
Proof. unfold cropped_file. destruct name; [reflexivity | exact id]. Qed.

(** *** Paths *)

Lemma path_join_inj (d a b : string) :
  starts_with "/" a = false -> starts_with "/" b = false ->
  path_join d a = path_join d b -> a = b.
Proof.
  unfold path_join. intros -> ->.
  destruct (String.eqb d "" || ends_with "/" d); intros H.
  - by apply string_app_inv_head in H.
  - apply string_app_inv_head in H. by apply string_app_inv_head in H.
Qed.

Lemma starts_with_contains (c : ascii) (s : string) :
  contains c s = false -> starts_with c s = false.
Proof. destruct s; simpl; [done |]. by intros [? _]%orb_false_iff. Qed.

Lemma strip_prefix_app (prefix s n : string) :
  strip_prefix prefix s = Some n -> s = prefix +:+ n.
Proof.
  revert s. induction prefix as [|a p IH]; intros s; simpl; [by intros [= ->] |].
  destruct s as [|b s]; [discriminate |].
  destruct (Ascii.eqb_spec a b) as [-> | _]; [| discriminate].
  intros H. rewrite string_app_cons. f_equal. by apply IH.
Qed.

Lemma entry_of_key (p key n : string) :
  entry_of p key = Some n -> key = path_join p "" +:+ n /\ contains "/" n = false.
Proof.
  unfold entry_of. destruct (strip_prefix (path_join p "") key) as [m|] eqn:E; [| discriminate].
  destruct (String.eqb m "" || contains "/" m) eqn:Em; [discriminate |].
  intros [= <-]. apply orb_false_iff in Em as [_ Em]. split; [by apply strip_prefix_app | done].
Qed.

(** ** The monad *)

Lemma bind_eq_ok {A B : Type} (m : M A) (k : A -> M B) (w w' : world) (a : A) (t : list event) :
  m w = {| res := Ok a; final := w'; trace := t |} ->
  bind m k w = {| res := res (k a w'); final := final (k a w'); trace := (t ++ trace (k a w'))%list |}.
Proof. intros E. unfold bind. rewrite E. reflexivity. Qed.

Lemma bind_eq_raise {A B : Type} (m : M A) (k : A -> M B) (w w' : world) (e : exn) (t : list event) :
  m w = {| res := Raise e; final := w'; trace := t |} ->
  bind m k w = {| res := Raise e; final := w'; trace := t |}.
Proof. intros E. unfold bind. rewrite E. reflexivity. Qed.

Lemma bind_lift_ok {A B : Type} (a : A) (k : A -> M B) (w : world) :
  bind (lift (Ok a)) k w = k a w.
Proof. unfold bind; cbn. destruct (k a w); reflexivity. Qed.

Lemma bind_lift_raise {A B : Type} (e : exn) (k : A -> M B) (w : world) :
  bind (lift (Raise e)) k w = raise e w.
Proof. reflexivity. Qed.

(** ** File-system operations, by cases *)

Lemma write_file_cases (p : string) (c : content) (ev : event) (w : world) :
  (exists e, write_file p c ev w = raise e w) \/
  write_file p c ev w = {| res := Ok tt; final := with_file w p c; trace := [ev] |}.
Proof. unfold write_file. destruct (writable w p); [right; reflexivity | left; eauto]. Qed.

Lemma read_file_cases (p : string) (w : world) :
  (exists e, read_file p w = raise e w /\ fs_files w !! p = None) \/
  (exists c, read_file p w = ret c w /\ fs_files w !! p = Some c).
Proof. unfold read_file. destruct (fs_files w !! p); [right | left]; eauto. Qed.

Lemma save_crop_cases (sv : services) (p : string) (bbox : list Z) (w : world) :
  (exists e, save_crop sv p bbox w = raise e w) \/
  save_crop sv p bbox w =
    {| res := Ok tt; final := with_file w p (crop_of bbox); trace := [SaveCrop p bbox] |}.
Proof.
  unfold save_crop. destruct (save_error sv p bbox); [left; eauto | apply write_file_cases].
Qed.

Lemma image_open_cases (p : string) (w : world) :
  (exists e, image_open p w = raise e w) \/ (exists size, image_open p w = ret size w).
Proof.
  unfold image_open, bind.
  destruct (read_file_cases p w) as [(e & -> & _) | (c & -> & _)]; [left; eauto |].
  destruct c; simpl; eauto.
Qed.

Lemma makedirs_cases (p : string) (w : world) :
  (exists e, makedirs p w = raise e w) \/
  (exists w', makedirs p w = {| res := Ok tt; final := w'; trace := [MakeDirs p] |} /\
              fs_dirs w' = fs_dirs w ∪ list_to_set (ancestors p) ∪ {[p]} /\
              fs_files w' = fs_files w /\ labels_open w' = labels_open w).
Proof.
  unfold makedirs. destruct (String.eqb p ""); [left; eauto |].
  destruct (path_exists w p); [left; eauto |].
  destruct (existsb (isfile w) (ancestors p)); [left; eauto |].
  right. eexists. split; [reflexivity |]. auto.
Qed.

(** ** What a run puts out *)

Lemma index_ok {A : Type} (l : list A) (i : nat) (v : A) :
  index l i = Ok v -> l !! i = Some v.
Proof. unfold index. destruct (l !! i); congruence. Qed.

Section Loop.
Variables (sv : services) (a : args) (dirs : list string) (labels name ext : string).

Lemma crop_fields_trace (fields : list field) :
  forall (jj : nat) (shapes : list shape) (w : world),
    let o := crop_fields sv a dirs labels name ext jj fields shapes w in
    let full := flat_map (crop_events a dirs name ext)
                         (accepted (min_image_size a) jj fields) in
    trace o `prefix_of` full /\
    (forall shapes', res o = Ok shapes' ->
       trace o = full /\
       shapes' = (shapes ++ map shape_of (accepted (min_image_size a) jj fields))%list).
Proof.
  induction fields as [|f rest IH]; intros jj shapes w; cbn zeta.
  - cbn. split; [done |]. intros s' [= <-]. by rewrite app_nil_r.
  - cbn [crop_fields accepted].
    destruct (get_bbox (vertices f)) as [bbox|e] eqn:Eb.
    2:{ rewrite bind_lift_raise. split; [apply prefix_nil | cbn; intros ? Hs; discriminate Hs]. }
    destruct (get_bbox_length _ _ Eb) as (l & u & r & d & ->).
    rewrite bind_lift_ok, valid_crop_size_eq, bind_lift_ok.
    destruct (negb ((r - l <? min_image_size a) || (d - u <? min_image_size a))) eqn:Ev;
      cbn [negb].
    2:{ apply IH. }
    destruct (index dirs 2) as [d2|e] eqn:Ed.
    2:{ rewrite bind_lift_raise. split; [apply prefix_nil | cbn; intros ? Hs; discriminate Hs]. }
    apply index_ok in Ed. rewrite bind_lift_ok.
    destruct (save_crop_cases sv
                (path_join (path_join (output_path a) d2) (cropped_file name ext jj))
                [l; u; r; d] w) as [[e Es] | Es].
    { rewrite (bind_eq_raise _ _ _ _ _ _ Es). cbn. split; [apply prefix_nil | cbn; intros ? Hs; discriminate Hs]. }
    rewrite (bind_eq_ok _ _ _ _ _ _ Es). cbn [res final trace].
    rewrite (bind_eq_ok _ _ _ _ _ _ eq_refl). cbn [res final trace].
    change (index [l; u; r; d] 0) with (Ok (A:=Z) l).
    change (index [l; u; r; d] 1) with (Ok (A:=Z) u).
    change (index [l; u; r; d] 2) with (Ok (A:=Z) r).
    change (index [l; u; r; d] 3) with (Ok (A:=Z) d).
    rewrite !bind_lift_ok.
    match goal with
    | |- context [crop_fields sv a dirs labels name ext (S jj) rest ?s ?w1] =>
        specialize (IH (S jj) s w1)
    end.
    cbn zeta in IH. destruct IH as [IHp IHo].
    cbn [flat_map]. unfold crop_events at 1 3. unfold crop_path.
    cbn [fst snd]. rewrite Ed. cbn [default from_option app id]. split.
    + by do 2 apply prefix_cons.
    + intros s' Hs. destruct (IHo s' Hs) as [-> ->]. split; [reflexivity |].
      cbn [map]. by rewrite <- app_assoc.
Qed.
End Loop.

(** ** The accepted fields *)

Lemma accepted_spec (size : Z) (fields : list field) :
  forall (jj j : nat) (f : field) (bbox : list Z),
    (j, f, bbox) ∈ accepted size jj fields <->
    (jj <= j)%nat /\ fields !! (j - jj)%nat = Some f /\
    get_bbox (vertices f) = Ok bbox /\ valid_crop_size bbox size = Ok true.
Proof.
  induction fields as [|g rest IH]; intros jj j f bbox; cbn [accepted].
  - split.
    + intros H. by apply elem_of_nil in H.
    + intros (_ & H & _). discriminate H.
  - assert (Hrest : (j, f, bbox) ∈ accepted size (S jj) rest <->
                    (jj < j)%nat /\ (g :: rest) !! (j - jj)%nat = Some f /\
                    get_bbox (vertices f) = Ok bbox /\ valid_crop_size bbox size = Ok true).
    { rewrite IH. split.
      - intros (Hj & Hl & Hb & Hv). split; [lia |]. split; [| done].
        replace (j - jj)%nat with (S (j - S jj)) by lia. exact Hl.
      - intros (Hj & Hl & Hb & Hv). split; [lia |]. split; [| done].
        replace (j - jj)%nat with (S (j - S jj)) in Hl by lia. exact Hl. }
    assert (Hhead : (jj <= j)%nat /\ (g :: rest) !! (j - jj)%nat = Some f /\
                    get_bbox (vertices f) = Ok bbox /\ valid_crop_size bbox size = Ok true <->
                    (j = jj /\ f = g /\ get_bbox (vertices g) = Ok bbox /\
                     valid_crop_size bbox size = Ok true) \/
                    ((jj < j)%nat /\ (g :: rest) !! (j - jj)%nat = Some f /\
                     get_bbox (vertices f) = Ok bbox /\ valid_crop_size bbox size = Ok true)).
    { split.
      - intros (Hj & Hl & Hb & Hv). destruct (decide (j = jj)) as [-> | Hne].
        + left. rewrite Nat.sub_diag in Hl. injection Hl as ->. auto.
        + right. split; [lia | done].
      - intros [(-> & -> & Hb & Hv) | (Hj & Hl & Hb & Hv)].
        + rewrite Nat.sub_diag. auto.
        + split; [lia | done]. }
    rewrite Hhead, <- Hrest. clear Hhead Hrest.
    destruct (get_bbox (vertices g)) as [b|e] eqn:Eb.
    2:{ split; [auto | intros [(_ & _ & ? & _) | ?]; [discriminate | done]]. }
    destruct (valid_crop_size b size) as [[|]|e] eqn:Ev.
    + rewrite elem_of_cons. split.
      * intros [[= -> -> ->] | ?]; auto.
      * intros [(-> & -> & [= ->] & _) | ?]; auto.
    + split; [auto | intros [(_ & _ & [= ->] & ?) | ?]; [congruence | done]].
    + split; [auto | intros [(_ & _ & [= ->] & ?) | ?]; [congruence | done]].
Qed.

Lemma accepted_increasing (size : Z) (fields : list field) :
  forall jj, StronglySorted lt (map position (accepted size jj fields)) /\
             Forall (fun j => (jj <= j)%nat) (map position (accepted size jj fields)).
Proof.
  induction fields as [|g rest IH]; intros jj; cbn [accepted]; [split; constructor |].
  destruct (IH (S jj)) as [Hs Hf].
  assert (Hf' : Forall (fun j => (jj <= j)%nat) (map position (accepted size (S jj) rest))).
  { eapply Forall_impl; [exact Hf | simpl; intros; lia]. }
  destruct (get_bbox (vertices g)) as [b|e]; [| done].
  destruct (valid_crop_size b size) as [[|]|e]; try done.
  cbn [map position fst]. split; constructor; try done.
Qed.

Lemma StronglySorted_lt_NoDup (l : list nat) : StronglySorted lt l -> NoDup l.
Proof.
  induction 1 as [|j l Hs IH Hf]; constructor; [| done].
  intros Hin. rewrite Forall_forall in Hf. apply Hf in Hin. lia.
Qed.

(** ** Projections of a trace *)

Lemma crop_seq_app (t1 t2 : list event) : crop_seq (t1 ++ t2) = (crop_seq t1 ++ crop_seq t2)%list.
Proof. apply omap_app. Qed.

Lemma label_texts_app (t1 t2 : list event) :
  label_texts (t1 ++ t2) = (label_texts t1 ++ label_texts t2)%list.
Proof. apply omap_app. Qed.

Lemma documents_app (t1 t2 : list event) :
  documents (t1 ++ t2) = (documents t1 ++ documents t2)%list.
Proof. apply omap_app. Qed.

Section Expected.
Variables (a : args) (dirs : list string) (name ext : string).

Lemma crop_seq_crop_events (cs : list (nat * field * list Z)) :
  crop_seq (flat_map (crop_events a dirs name ext) cs) = map (crop_path_of a dirs name ext) cs.
Proof. induction cs as [|c cs IH]; [reflexivity |]. cbn. by rewrite <- IH. Qed.

Lemma label_texts_crop_events (cs : list (nat * field * list Z)) :
  label_texts (flat_map (crop_events a dirs name ext) cs) = map (record_of name ext) cs.
Proof. induction cs as [|c cs IH]; [reflexivity |]. cbn. by rewrite <- IH. Qed.

Lemma documents_crop_events (cs : list (nat * field * list Z)) :
  documents (flat_map (crop_events a dirs name ext) cs) = [].
Proof. induction cs as [|c cs IH]; [reflexivity |]. cbn. exact IH. Qed.
End Expected.

Lemma crop_seq_clova (p : string) (r : clova) (t : list event) :
  crop_seq (DumpClova p r :: t) = crop_seq t.
Proof. done. Qed.

Lemma label_texts_clova (p : string) (r : clova) (t : list event) :
  label_texts (DumpClova p r :: t) = label_texts t.
Proof. done. Qed.

Lemma documents_clova (p : string) (r : clova) (t : list event) :
  documents (DumpClova p r :: t) = documents t.
Proof. done. Qed.

Lemma omap_prefix {A B : Type} (f : A -> option B) (l1 l2 : list A) :
  l1 `prefix_of` l2 -> omap f l1 `prefix_of` omap f l2.
Proof. intros [k ->]. rewrite omap_app. by eexists. Qed.

Lemma copy_file_cases (src dst : string) (w : world) :
  (exists e, copy_file src dst w = raise e w) \/
  (exists c, copy_file src dst w =
               {| res := Ok tt; final := with_file w dst c; trace := [CopyFile src dst] |}).
Proof.
  unfold copy_file.
  destruct (read_file_cases src w) as [(e & Er & _) | (c & Er & _)].
  { left. exists e. by rewrite (bind_eq_raise _ _ _ _ _ _ Er). }
  rewrite (bind_eq_ok _ _ _ _ _ _ Er).
  destruct (write_file_cases dst c (CopyFile src dst) w) as [[e Ew] | Ew]; rewrite Ew.
  - left. by exists e.
  - right. by exists c.
Qed.

(** ** One image *)

Section Image.
Variables (sv : services) (a : args) (dirs : list string) (labels : string).

Lemma request_cases (subdir image_file : string) (w : world) :
  (exists e, request_recognition_from_clova_ocr sv a subdir image_file w = raise e w) \/
  (exists name ext r,
      split_name_ext image_file = Ok (name, ext) /\
      post sv (path_join (input_path a) image_file) = Json r /\
      request_recognition_from_clova_ocr sv a subdir image_file w =
        {| res := Ok (path_join (path_join (output_path a) subdir) (name +:+ "_clova.json"));
           final := with_file w
                      (path_join (path_join (output_path a) subdir) (name +:+ "_clova.json"))
                      (ClovaJson r);
           trace := [DumpClova
                       (path_join (path_join (output_path a) subdir) (name +:+ "_clova.json"))
                       r] |}).
Proof.
  unfold request_recognition_from_clova_ocr.
  destruct (split_name_ext image_file) as [[name ext]|e] eqn:Es.
  2:{ left. exists e. reflexivity. }
  rewrite bind_lift_ok.
  destruct (read_file_cases (path_join (input_path a) image_file) w)
    as [(e & Er & _) | (c & Er & _)].
  { left. exists e. by rewrite (bind_eq_raise _ _ _ _ _ _ Er). }
  rewrite (bind_eq_ok _ _ _ _ _ _ Er). cbn [app fst].
  destruct (post sv (path_join (input_path a) image_file)) as [| |r] eqn:Ep.
  - left. by exists OSError.
  - left. by exists ValueError.
  - destruct (write_file_cases
                (path_join (path_join (output_path a) subdir) (name +:+ "_clova.json"))
                (ClovaJson r)
                (DumpClova (path_join (path_join (output_path a) subdir)
                                      (name +:+ "_clova.json")) r) w) as [[e Ew] | Ew].
    + left. exists e. by rewrite (bind_eq_raise _ _ _ _ _ _ Ew).
    + right. exists name, ext, r. split; [done |]. split; [done |].
      by rewrite (bind_eq_ok _ _ _ _ _ _ Ew).
Qed.

Lemma load_clova_written (p : string) (r : clova) (w : world) :
  load_clova p (with_file w p (ClovaJson r)) = ret r (with_file w p (ClovaJson r)).
Proof.
  unfold load_clova, bind, read_file. cbn [with_file fs_files].
  rewrite lookup_insert_eq. reflexivity.
Qed.

(** What processing one image puts out, against the accepted fields of
    its recognition result. *)
Lemma process_file_trace (file_name name ext : string) (w : world) :
  split_name_ext file_name = Ok (name, ext) ->
  let o := process_file sv a dirs labels file_name w in
  let acc := accepted (min_image_size a) 0 (recognized sv a file_name) in
  crop_seq (trace o) `prefix_of` map (crop_path_of a dirs name ext) acc /\
  label_texts (trace o) `prefix_of` map (record_of name ext) acc /\
  match res o with
  | Ok _ =>
      crop_seq (trace o) = map (crop_path_of a dirs name ext) acc /\
      label_texts (trace o) = map (record_of name ext) acc /\
      exists doc, documents (trace o) = [doc] /\ shapes doc = map shape_of acc
  | Raise _ => documents (trace o) = []
  end.
Proof.
  intros Es. cbn zeta. unfold process_file. rewrite Es, bind_lift_ok. cbn [fst snd].
  destruct (index dirs 1) as [d1|e] eqn:Ed1.
  2:{ rewrite bind_lift_raise. cbn. repeat split; apply prefix_nil. }
  rewrite bind_lift_ok.
  destruct (request_cases d1 file_name w) as [[e Er] | (n & x & r & Es' & Ep & Er)].
  { rewrite (bind_eq_raise _ _ _ _ _ _ Er). cbn. repeat split; apply prefix_nil. }
  rewrite Es in Es'. injection Es' as <- <-.
  rewrite (bind_eq_ok _ _ _ _ _ _ Er). cbn [res final trace].
  rewrite (bind_eq_ok _ _ _ _ _ _ (load_clova_written _ _ _)). cbn [res final trace app].
  set (w1 := with_file w _ _).
  destruct (image_open_cases (path_join (input_path a) file_name) w1)
    as [[e Ei] | [size Ei]].
  { rewrite (bind_eq_raise _ _ _ _ _ _ Ei). cbn. repeat split; apply prefix_nil. }
  rewrite (bind_eq_ok _ _ _ _ _ _ Ei). cbn [res final trace app].
  unfold recognized. rewrite Ep.
  destruct r as [|fields].
  { rewrite bind_lift_raise. cbn. repeat split; apply prefix_nil. }
  rewrite bind_lift_ok.
  pose proof (crop_fields_trace sv a dirs labels name ext fields 0 [] w1) as Hc.
  cbn zeta in Hc. destruct Hc as [Hpre Hok].
  set (acc := accepted (min_image_size a) 0 fields) in *.
  destruct (crop_fields sv a dirs labels name ext 0 fields [] w1)
    as [[shapes|e] w2 t] eqn:Ec; cbn [res trace] in *.
  2:{ rewrite (bind_eq_raise _ _ _ _ _ _ Ec). cbn [res trace app].
      rewrite crop_seq_clova, label_texts_clova, documents_clova.
      apply (omap_prefix (fun ev => match ev with SaveCrop p _ => Some p | _ => None end))
        in Hpre as Hp1.
      apply (omap_prefix (fun ev => match ev with WriteLabels s => Some s | _ => None end))
        in Hpre as Hp2.
      fold (crop_seq t) in Hp1. fold (label_texts t) in Hp2.
      fold (crop_seq (flat_map (crop_events a dirs name ext) acc)) in Hp1.
      fold (label_texts (flat_map (crop_events a dirs name ext) acc)) in Hp2.
      rewrite crop_seq_crop_events in Hp1. rewrite label_texts_crop_events in Hp2.
      split; [exact Hp1 |]. split; [exact Hp2 |].
      destruct Hpre as [k Hk].
      pose proof (documents_crop_events a dirs name ext acc) as Hd.
      rewrite Hk, documents_app in Hd. by apply app_eq_nil in Hd as [Hd _]. }
  destruct (Hok shapes eq_refl) as [-> ->]. clear Hok Hpre.
  rewrite (bind_eq_ok _ _ _ _ _ _ Ec). cbn [res final trace app].
  destruct (index dirs 3) as [d3|e] eqn:Ed3.
  2:{ rewrite bind_lift_raise. cbn [raise res trace]. rewrite app_nil_r.
      rewrite crop_seq_clova, label_texts_clova, documents_clova.
      rewrite crop_seq_crop_events, label_texts_crop_events, documents_crop_events. done. }
  rewrite bind_lift_ok.
  destruct (copy_file_cases (path_join (input_path a) file_name) (path_join d3 file_name) w2)
    as [[e Ef] | [c Ef]].
  { rewrite (bind_eq_raise _ _ _ _ _ _ Ef).
    cbn [res trace]. rewrite app_nil_r.
    rewrite crop_seq_clova, label_texts_clova, documents_clova.
    rewrite crop_seq_crop_events, label_texts_crop_events, documents_crop_events. done. }
  rewrite (bind_eq_ok _ _ _ _ _ _ Ef). cbn [res final trace].
  match goal with
  | |- context [write_file ?p ?c ?ev ?w3] =>
      destruct (write_file_cases p c ev w3) as [[e Ew'] | Ew']; rewrite Ew'
  end; cbn [raise res trace];
    rewrite crop_seq_clova, label_texts_clova, documents_clova;
    rewrite !crop_seq_app, !label_texts_app, !documents_app,
      crop_seq_crop_events, label_texts_crop_events, documents_crop_events;
    cbn; rewrite ?app_nil_r.
  - done.
  - repeat split; try done. eexists. split; reflexivity.
Qed.
End Image.

(** ** Relations every operation keeps between the worlds before and after *)

Section Preserves.
Variable R : world -> world -> Prop.
Hypothesis R_refl : forall w, R w w.
Hypothesis R_trans : forall w1 w2 w3, R w1 w2 -> R w2 w3 -> R w1 w3.

Lemma preserves_ret {A : Type} (v : A) : preserves R (ret v).
Proof. intros w. apply R_refl. Qed.

Lemma preserves_raise {A : Type} (e : exn) : preserves R (raise (A:=A) e).
Proof. intros w. apply R_refl. Qed.

Lemma preserves_lift {A : Type} (r : result A) : preserves R (lift r).
Proof. destruct r; [apply preserves_ret | apply preserves_raise]. Qed.

Lemma preserves_bind {A B : Type} (m : M A) (k : A -> M B) :
  preserves R m -> (forall v, preserves R (k v)) -> preserves R (bind m k).
Proof.
  intros Hm Hk w. unfold bind. specialize (Hm w).
  destruct (m w) as [[v|e] w' t]; cbn in *; [| exact Hm].
  eapply R_trans; [exact Hm | apply Hk].
Qed.

Hypothesis R_file : forall w p c, R w (with_file w p c).
Hypothesis R_dirs : forall w w', fs_dirs w ⊆ fs_dirs w' -> fs_files w' = fs_files w ->
                                 labels_open w' = labels_open w -> R w w'.
Hypothesis R_append : forall w text labels,
    R w {| fs_dirs := fs_dirs w;
           fs_files := alter (append_text text) labels (fs_files w);
           labels_open := labels_open w |}.

Lemma preserves_write_file (p : string) (c : content) (ev : event) :
  preserves R (write_file p c ev).
Proof.
  intros w. destruct (write_file_cases p c ev w) as [[e ->] | ->]; [apply R_refl | apply R_file].
Qed.

Lemma preserves_read_file (p : string) : preserves R (read_file p).
Proof.
  intros w. destruct (read_file_cases p w) as [(e & -> & _) | (c & -> & _)]; apply R_refl.
Qed.

Lemma preserves_makedirs (p : string) : preserves R (makedirs p).
Proof.
  intros w. destruct (makedirs_cases p w) as [[e ->] | (w' & -> & Hd & Hf & Hl)];
    [apply R_refl |].
  cbn. apply R_dirs; [| done | done].
  rewrite Hd. apply union_subseteq_l', union_subseteq_l.
Qed.

Lemma preserves_save_crop (sv : services) (p : string) (bbox : list Z) :
  preserves R (save_crop sv p bbox).
Proof.
  intros w. destruct (save_crop_cases sv p bbox w) as [[e ->] | ->];
    [apply R_refl | apply R_file].
Qed.

Lemma preserves_labels_write (labels text : string) : preserves R (labels_write labels text).
Proof. intros w. apply R_append. Qed.

Lemma preserves_listdir (p : string) : preserves R (listdir p).
Proof. intros w. unfold listdir. destruct (isdir w p); apply R_refl. Qed.

Lemma preserves_crop_fields (sv : services) (a : args) (dirs : list string)
    (labels name ext : string) (fields : list field) :
  forall jj shapes, preserves R (crop_fields sv a dirs labels name ext jj fields shapes).
Proof.
  induction fields as [|f rest IH]; intros jj shapes; cbn [crop_fields].
  - apply preserves_ret.
  - apply preserves_bind; [apply preserves_lift | intros bbox].
    apply preserves_bind; [apply preserves_lift | intros valid].
    destruct (negb valid); [apply IH |].
    apply preserves_bind; [apply preserves_lift | intros d2].
    apply preserves_bind; [apply preserves_save_crop | intros _].
    apply preserves_bind; [apply preserves_labels_write | intros _].
    do 4 (apply preserves_bind; [apply preserves_lift | intros ?]).
    apply IH.
Qed.

Lemma preserves_process_file (sv : services) (a : args) (dirs : list string)
    (labels file_name : string) :
  preserves R (process_file sv a dirs labels file_name).
Proof.
  unfold process_file.
  apply preserves_bind; [apply preserves_lift | intros ne].
  apply preserves_bind; [apply preserves_lift | intros d1].
  apply preserves_bind.
  { unfold request_recognition_from_clova_ocr.
    apply preserves_bind; [apply preserves_lift | intros ne'].
    apply preserves_bind; [apply preserves_read_file | intros _].
    destruct (post sv _); try apply preserves_raise.
    apply preserves_bind; [apply preserves_write_file | intros _; apply preserves_ret]. }
  intros jf.
  apply preserves_bind.
  { unfold load_clova. apply preserves_bind; [apply preserves_read_file | intros c].
    destruct c; first [apply preserves_ret | apply preserves_raise]. }
  intros json_data.
  apply preserves_bind.
  { unfold image_open. apply preserves_bind; [apply preserves_read_file | intros c].
    destruct c; first [apply preserves_ret | apply preserves_raise]. }
  intros size.
  apply preserves_bind; [apply preserves_lift | intros fields].
  apply preserves_bind; [apply preserves_crop_fields | intros shapes].
  apply preserves_bind; [apply preserves_lift | intros d3].
  apply preserves_bind; [| intros _; apply preserves_write_file].
  unfold copy_file. apply preserves_bind; [apply preserves_read_file | intros c].
  apply preserves_write_file.
Qed.

Lemma preserves_process_files (sv : services) (a : args) (dirs : list string)
    (labels : string) (files : list string) :
  preserves R (process_files sv a dirs labels files).
Proof.
  induction files as [|f rest IH]; cbn [process_files]; [apply preserves_ret |].
  apply preserves_bind; [apply preserves_process_file | intros _; exact IH].
Qed.

Lemma preserves_make_sub_dirs (root : string) (sub_dirs : list string) :
  forall dirs, preserves R (make_sub_dirs root sub_dirs dirs).
Proof.
  induction sub_dirs as [|s rest IH]; intros dirs; cbn [make_sub_dirs];
    [apply preserves_ret |].
  apply preserves_bind; [apply preserves_makedirs | intros _; apply IH].
Qed.

Lemma preserves_create_working_directory (root : string) (sub_dirs : list string) :
  preserves R (create_working_directory root sub_dirs).
Proof.
  unfold create_working_directory.
  apply preserves_bind; [apply preserves_makedirs | intros _; apply preserves_make_sub_dirs].
Qed.

Lemma preserves_get_files (path except_file : string) :
  preserves R (get_files path except_file).
Proof.
  unfold get_files. apply preserves_bind; [apply preserves_listdir | intros; apply preserves_ret].
Qed.
End Preserves.

Lemma grows_refl (w : world) : grows w w.
Proof. split; set_solver. Qed.

Lemma grows_trans (w1 w2 w3 : world) : grows w1 w2 -> grows w2 w3 -> grows w1 w3.
Proof. intros [? ?] [? ?]. split; set_solver. Qed.

Lemma grows_file (w : world) (p : string) (c : content) : grows w (with_file w p c).
Proof. split; cbn; [done |]. rewrite dom_insert. set_solver. Qed.

Lemma grows_dirs (w w' : world) :
  fs_dirs w ⊆ fs_dirs w' -> fs_files w' = fs_files w -> labels_open w' = labels_open w ->
  grows w w'.
Proof. intros Hd Hf _. split; [done | by rewrite Hf]. Qed.

Lemma grows_append (w : world) (text labels : string) :
  grows w {| fs_dirs := fs_dirs w;
             fs_files := alter (append_text text) labels (fs_files w);
             labels_open := labels_open w |}.
Proof. split; cbn; [done |]. by rewrite dom_alter. Qed.


Lemma grows_isdir (w w' : world) (p : string) :
  grows w w' -> isdir w p = true -> isdir w' p = true.
Proof. intros [Hd _]. unfold isdir. rewrite !bool_decide_eq_true. set_solver. Qed.

(** Processing the files neither opens nor closes [labels]. *)
Lemma process_files_same_handle (sv : services) (a : args) (dirs : list string)
    (labels : string) (files : list string) (w : world) :
  labels_open (final (process_files sv a dirs labels files w)) = labels_open w.
Proof.
  apply (preserves_process_files same_handle); unfold same_handle; try done; congruence.
Qed.

Lemma process_files_grows (sv : services) (a : args) (dirs : list string)
    (labels : string) (files : list string) (w : world) :
  grows w (final (process_files sv a dirs labels files w)).
Proof.
  apply (preserves_process_files grows);
    auto using grows_refl, grows_file, grows_dirs, grows_append.
  apply grows_trans.
Qed.

Lemma bind_eq_ret {A B : Type} (m : M A) (k : A -> M B) (w : world) (v : A) :
  m w = ret v w -> bind m k w = k v w.
Proof. intros E. unfold bind. rewrite E. cbn. destruct (k v w); reflexivity. Qed.

(** ** The listing *)

Lemma NoDup_omap_inj {A B : Type} (f : A -> option B) (l : list A) :
  (forall x y z, f x = Some z -> f y = Some z -> x = y) ->
  NoDup l -> NoDup (omap f l).
Proof.
  intros Hinj. induction 1 as [|x l Hx Hl IH]; [constructor |].
  cbn. destruct (f x) as [z|] eqn:E; [| exact IH].
  constructor; [| exact IH].
  intros Hin. apply list_elem_of_omap in Hin as (y & Hy & Ey).
  by rewrite (Hinj _ _ _ E Ey) in Hx.
Qed.

Lemma listdir_cases (p : string) (w : world) :
  (exists e, listdir p w = raise e w) \/
  listdir p w = ret (omap (entry_of p) (elements (fs_dirs w ∪ dom (fs_files w)))) w.
Proof. unfold listdir. destruct (isdir w p); [by right | left; by eexists]. Qed.

Lemma get_files_cases (path : string) (w : world) :
  (exists e, get_files path "" w = raise e w) \/
  (exists files, get_files path "" w = ret (files, length files) w /\ listing_ok w path files).
Proof.
  unfold get_files.
  destruct (listdir_cases path w) as [[e E] | E].
  { left. exists e. by rewrite (bind_eq_raise _ _ _ _ _ _ E). }
  rewrite (bind_eq_ret _ _ _ _ E).
  set (keys := elements (fs_dirs w ∪ dom (fs_files w))).
  set (keep := fun file => negb (starts_with "." file || String.eqb file (basename ""))).
  right. exists (merge_sort str_le (List.filter keep (omap (entry_of path) keys))).
  split; [reflexivity |].
  assert (Hperm : merge_sort str_le (List.filter keep (omap (entry_of path) keys))
                    ≡ₚ List.filter keep (omap (entry_of path) keys))
    by apply merge_sort_Permutation.
  split.
  - rewrite Hperm.
    apply NoDup_ListNoDup, List.NoDup_filter, NoDup_ListNoDup, NoDup_omap_inj;
      [| apply NoDup_elements].
    intros k1 k2 n H1 H2. apply entry_of_key in H1 as [-> _], H2 as [-> _]. done.
  - intros f Hf. rewrite Hperm in Hf.
    apply list_elem_of_In, List.filter_In in Hf as [Hf _].
    apply list_elem_of_In, list_elem_of_omap in Hf as (k & Hk & Ek).
    apply entry_of_key in Ek as [-> Hs]. split; [done |].
    by apply elem_of_elements in Hk.
Qed.

(** ** The batch *)

Lemma setup_projections (t : list event) :
  Forall setup t -> crop_seq t = [] /\ label_texts t = [] /\ documents t = [].
Proof.
  induction 1 as [|ev t Hev _ IH]; [done |].
  destruct ev; try done; exact IH.
Qed.

Lemma make_sub_dirs_setup (root : string) (sub_dirs : list string) :
  forall dirs w,
    Forall setup (trace (make_sub_dirs root sub_dirs dirs w)) /\
    (forall ds, res (make_sub_dirs root sub_dirs dirs w) = Ok ds ->
                ds = (dirs ++ map (path_join root) sub_dirs)%list).
Proof.
  induction sub_dirs as [|s rest IH]; intros dirs w; cbn [make_sub_dirs].
  - cbn. split; [constructor |]. intros ds [= <-]. by rewrite app_nil_r.
  - destruct (makedirs_cases (path_join root s) w) as [[e E] | (w' & E & _)].
    + rewrite (bind_eq_raise _ _ _ _ _ _ E). split; [constructor | intros ? H; discriminate H].
    + rewrite (bind_eq_ok _ _ _ _ _ _ E). cbn [res trace].
      destruct (IH (dirs ++ [path_join root s])%list w') as [Hs Hd]. split.
      * constructor; [exact I | exact Hs].
      * intros ds Hds. rewrite (Hd ds Hds), <- app_assoc. reflexivity.
Qed.

Lemma create_working_directory_cases (root : string) (sub_dirs : list string) (w : world) :
  let o := create_working_directory root sub_dirs w in
  (exists e, o = raise e w) \/
  (Forall setup (trace o) /\ isdir (final o) root = true /\ grows w (final o) /\
   labels_open (final o) = labels_open w /\
   forall ds, res o = Ok ds -> ds = root :: map (path_join root) sub_dirs).
Proof.
  cbn zeta. unfold create_working_directory.
  destruct (makedirs_cases root w) as [[e E] | (w' & E & Hd & Hf & Hl)].
  { left. exists e. by rewrite (bind_eq_raise _ _ _ _ _ _ E). }
  right. rewrite (bind_eq_ok _ _ _ _ _ _ E). cbn [res final trace].
  destruct (make_sub_dirs_setup root sub_dirs [root] w') as [Hs Hds].
  assert (Hg : grows w' (final (make_sub_dirs root sub_dirs [root] w'))).
  { apply (preserves_make_sub_dirs grows);
      auto using grows_refl, grows_file, grows_dirs, grows_append. apply grows_trans. }
  assert (Hh : labels_open (final (make_sub_dirs root sub_dirs [root] w')) = labels_open w').
  { apply (preserves_make_sub_dirs same_handle); unfold same_handle; try done; congruence. }
  split; [constructor; [exact I | exact Hs] |].
  split; [| split; [| split]].
  - eapply grows_isdir; [exact Hg |]. unfold isdir. apply bool_decide_eq_true.
    rewrite Hd. apply elem_of_union_r. by apply elem_of_singleton.
  - eapply grows_trans; [| exact Hg]. split; [| by rewrite Hf].
    rewrite Hd. apply union_subseteq_l', union_subseteq_l.
  - congruence.
  - exact Hds.
Qed.

Lemma open_labels_cases (p : string) (w : world) :
  (exists e, open_labels p w = raise e w) \/
  open_labels p w = {| res := Ok p; final := opened w p; trace := [OpenLabels p] |}.
Proof. unfold open_labels. destruct (writable w p); [by right | left; by eexists]. Qed.

Section Batch.
Variables (sv : services) (a : args).

Lemma run_eq (w : world) :
  run sv a w =
    if negb (path_exists w (input_path a))
    then raise (SystemExit (cannot_find (input_path a))) w
    else
      bind (fun w' =>
              if isdir w' (output_path a)
              then raise (SystemExit (already_exists (output_path a))) w'
              else create_working_directory (output_path a)
                     ["recognized"; "cropped"; "converted"] w')
           (batch sv a) w.
Proof. reflexivity. Qed.

Lemma batch_cases (dirs : list string) (w : world) :
  (exists e, batch sv a dirs w = raise e w) \/
  (exists files labels w1,
      listing_ok w (input_path a) files /\ grows w w1 /\ labels_open w1 = true /\
      let o := process_files sv a dirs labels files w1 in
      batch sv a dirs w =
        match res o with
        | Ok _ => {| res := Ok tt; final := closed (final o);
                     trace := OpenLabels labels :: trace o ++ [CloseLabels] |}
        | Raise e => {| res := Raise e; final := final o;
                        trace := OpenLabels labels :: trace o |}
        end).
Proof.
  unfold batch.
  destruct (get_files_cases (input_path a) w) as [[e E] | (files & E & Hfiles)].
  { left. exists e. by rewrite (bind_eq_raise _ _ _ _ _ _ E). }
  rewrite (bind_eq_ret _ _ _ _ E). cbn [fst].
  destruct (index dirs 2) as [d2|e].
  2:{ left. exists e. reflexivity. }
  rewrite bind_lift_ok.
  set (p := path_join (path_join (output_path a) d2) "labels.txt").
  destruct (open_labels_cases p w) as [[e Eo] | Eo].
  { left. exists e. by rewrite (bind_eq_raise _ _ _ _ _ _ Eo). }
  rewrite (bind_eq_ok _ _ _ _ _ _ Eo). right.
  exists files, p, (opened w p).
  split; [exact Hfiles |]. split; [| split; [reflexivity |]].
  { split; cbn; [done |]. rewrite dom_insert. set_solver. }
  cbn zeta. unfold bind.
  destruct (process_files sv a dirs p files (opened w p)) as [[[]|e] w2 t]; reflexivity.
Qed.
End Batch.

(** ** Crop file names of a batch *)

Section Crops.
Variables (sv : services) (a : args) (dirs : list string).

Lemma process_file_crops (labels file_name : string) (w : world) :
  let o := process_file sv a dirs labels file_name w in
  crop_seq (trace o) `prefix_of` crop_paths_of_file sv a dirs file_name /\
  (res o = Ok tt -> crop_seq (trace o) = crop_paths_of_file sv a dirs file_name).
Proof.
  cbn zeta. unfold crop_paths_of_file.
  destruct (split_name_ext file_name) as [[name ext]|e] eqn:Es.
  - pose proof (process_file_trace sv a dirs labels file_name name ext w Es) as H.
    cbn zeta in H. destruct H as (Hp & _ & Hr). split; [exact Hp |].
    intros Hok. rewrite Hok in Hr. apply Hr.
  - unfold process_file. rewrite Es. split; [apply prefix_nil | intros H; discriminate H].
Qed.

Lemma process_files_crops (labels : string) (files : list string) :
  forall w,
    let o := process_files sv a dirs labels files w in
    crop_seq (trace o) `prefix_of` flat_map (crop_paths_of_file sv a dirs) files /\
    (res o = Ok tt -> crop_seq (trace o) = flat_map (crop_paths_of_file sv a dirs) files).
Proof.
  induction files as [|f rest IH]; intros w; cbn zeta; cbn [process_files flat_map].
  - split; [apply prefix_nil | reflexivity].
  - pose proof (process_file_crops labels f w) as Hf. cbn zeta in Hf.
    destruct (process_file sv a dirs labels f w) as [[[]|e] w' t] eqn:E; cbn [res trace] in Hf.
    + rewrite (bind_eq_ok _ _ _ _ _ _ E). cbn [res trace].
      destruct Hf as [_ Hf]. rewrite crop_seq_app, (Hf eq_refl).
      destruct (IH w') as [Hp Hr]. split; [by apply prefix_app |].
      intros Hok. by rewrite (Hr Hok).
    + rewrite (bind_eq_raise _ _ _ _ _ _ E). cbn [res trace].
      destruct Hf as [Hf _]. split; [by apply prefix_app_r | intros H; discriminate H].
Qed.

Lemma crop_paths_of_file_elem (file_name p : string) :
  p ∈ crop_paths_of_file sv a dirs file_name ->
  exists name ext jj,
    split_name_ext file_name = Ok (name, ext) /\
    p = crop_path a dirs (cropped_file name ext jj).
Proof.
  unfold crop_paths_of_file.
  destruct (split_name_ext file_name) as [[name ext]|e]; [| by intros ?%elem_of_nil].
  intros (c & -> & _)%list_elem_of_fmap. by exists name, ext, (position c).
Qed.

Lemma crop_path_inj (file_name file_name' name ext name' ext' : string) (jj jj' : nat) :
  contains "/" file_name = false -> contains "/" file_name' = false ->
  split_name_ext file_name = Ok (name, ext) ->
  split_name_ext file_name' = Ok (name', ext') ->
  crop_path a dirs (cropped_file name ext jj) = crop_path a dirs (cropped_file name' ext' jj') ->
  file_name = file_name' /\ jj = jj'.
Proof.
  intros Hs Hs' (-> & Hn & _)%split_name_ext_ok (-> & Hn' & _)%split_name_ext_ok.
  rewrite contains_app in Hs, Hs'.
  apply orb_false_iff in Hs as [Hs _], Hs' as [Hs' _].
  unfold crop_path. intros H%path_join_inj;
    try (apply cropped_file_relative, starts_with_contains; assumption).
  apply cropped_file_inj in H as (-> & -> & ->); done.
Qed.

Lemma crop_paths_of_file_NoDup (file_name : string) :
  contains "/" file_name = false -> NoDup (crop_paths_of_file sv a dirs file_name).
Proof.
  intros Hs. unfold crop_paths_of_file.
  destruct (split_name_ext file_name) as [[name ext]|e] eqn:Es; [| constructor].
  pose proof (accepted_increasing (min_image_size a) (recognized sv a file_name) 0)
    as [Hsorted _].
  apply StronglySorted_lt_NoDup in Hsorted.
  apply NoDup_fmap_2_strong; [| by apply NoDup_fmap_1 in Hsorted].
  intros c c' Hc Hc' H. unfold crop_path_of in H.
  destruct (crop_path_inj _ _ _ _ _ _ _ _ Hs Hs Es Es H) as [_ Hpos].
  destruct c as [[j f] b], c' as [[j' f'] b']. cbn in Hpos. subst j'.
  apply accepted_spec in Hc as (_ & Hl & Hb & _), Hc' as (_ & Hl' & Hb' & _).
  congruence.
Qed.

Lemma crop_paths_NoDup (files : list string) :
  NoDup files -> (forall f, f ∈ files -> contains "/" f = false) ->
  NoDup (flat_map (crop_paths_of_file sv a dirs) files).
Proof.
  induction 1 as [|f rest Hf Hrest IH]; intros Hs; cbn [flat_map]; [constructor |].
  apply NoDup_app. split; [apply crop_paths_of_file_NoDup, Hs; left |].
  split; [| apply IH; intros; apply Hs; by right].
  intros p Hp Hp'.
  apply crop_paths_of_file_elem in Hp as (name & ext & jj & Es & ->).
  apply list_elem_of_In, in_flat_map in Hp' as (f' & Hf' & Hp').
  apply list_elem_of_In in Hf', Hp'.
  apply crop_paths_of_file_elem in Hp' as (name' & ext' & jj' & Es' & Hp').
  destruct (crop_path_inj f f' name ext name' ext' jj jj') as [-> _]; try done.
  - apply Hs; left.
  - apply Hs; by right.
Qed.
End Crops.

Lemma NoDup_prefix {A : Type} (l1 l2 : list A) : l1 `prefix_of` l2 -> NoDup l2 -> NoDup l1.
Proof. intros [k ->] H. by apply NoDup_app in H as [H _]. Qed.

(** No crop path is written twice in a run. *)
Lemma run_crops_NoDup (sv : services) (a : args) (w : world) :
  NoDup (crop_seq (trace (run sv a w))).
Proof.
  rewrite run_eq.
  destruct (negb (path_exists w (input_path a))); [constructor |].
  destruct (isdir w (output_path a)) eqn:Ed.
  { unfold bind. rewrite Ed. constructor. }
  unfold bind at 1. rewrite Ed.
  pose proof (create_working_directory_cases (output_path a)
                ["recognized"; "cropped"; "converted"] w) as Hc. cbn zeta in Hc.
  destruct (create_working_directory (output_path a) ["recognized"; "cropped"; "converted"] w)
    as [[dirs|e] w0 t0] eqn:Ec; cbn [res final trace] in *.
  2:{ destruct Hc as [[e' [= _ _ ->]] | (Hs & _)]; [constructor |].
      apply setup_projections in Hs as (-> & _). constructor. }
  destruct Hc as [[e' Hc] | (Hs & _)]; [discriminate Hc |].
  apply setup_projections in Hs as (Hs & _).
  rewrite crop_seq_app, Hs. cbn [app].
  destruct (batch_cases sv a dirs w0) as [[e ->] | (files & labels & w1 & Hl & _ & _ & Hb)];
    [constructor |].
  cbn zeta in Hb. rewrite Hb. destruct Hl as [Hnd Hfs].
  pose proof (process_files_crops sv a dirs labels files w1) as [Hp _].
  assert (Hnd' : NoDup (crop_seq (trace (process_files sv a dirs labels files w1)))).
  { eapply NoDup_prefix; [exact Hp |].
    apply crop_paths_NoDup; [exact Hnd | intros f Hf; by apply Hfs]. }
  destruct (res (process_files sv a dirs labels files w1)); cbn [trace].
  - change (crop_seq (OpenLabels labels :: ?t)) with (crop_seq t).
    rewrite crop_seq_app. cbn. by rewrite app_nil_r.
  - exact Hnd'.
Qed.

(** ** A run on one image *)

Example run_one_image :
  res (run three_fields in_out one_image) = Ok tt /\
  crop_seq (trace (run three_fields in_out one_image)) =
    ["/out/cropped/0000000001_000.png"; "/out/cropped/0000000001_002.png"] /\
  label_texts (trace (run three_fields in_out one_image)) =
    [label_record "0000000001_000.png" "abcd"; label_record "0000000001_002.png" "efgh"] /\
  map (fun doc => map label (shapes doc)) (documents (trace (run three_fields in_out one_image))) =
    [["abcd"; "efgh"]] /\
  map (fun doc => map points (shapes doc)) (documents (trace (run three_fields in_out one_image))) =
    [[ [[0; 0]; [30; 40]]; [[0; 0]; [20; 16]] ]].
Proof. vm_compute. repeat split. Qed.

(** C3: every crop of an image is written to the name
    [{name}_{jj:03d}.{ext}] ([jj] in decimal, zero-padded to three digits or
    more), where [jj] is the position of the field in the recognition
    result of that image, counted from 0 before the filter: the crops of an
    image are those of its accepted positions, in increasing order, all of
    them when the image is processed to the end; and no crop path occurs
    twice in a run. *)
Theorem crop_file_names (sv : services) (a : args) :
  (forall name ext jj,
      cropped_file name ext jj = name +:+ "_" +:+ format_03d jj +:+ "." +:+ ext /\
      parse_nat (format_03d jj) = Some jj /\
      String.length (format_03d jj) = Nat.max 3 (String.length (decimal jj))) /\
  (forall dirs labels file_name name ext w,
      split_name_ext file_name = Ok (name, ext) ->
      let o := process_file sv a dirs labels file_name w in
      let accepted_at jj :=
        exists f bbox,
          recognized sv a file_name !! jj = Some f /\
          get_bbox (vertices f) = Ok bbox /\
          valid_crop_size bbox (min_image_size a) = Ok true in
      exists js,
        crop_seq (trace o) = map (fun jj => crop_path a dirs (cropped_file name ext jj)) js /\
        StronglySorted lt js /\
        (forall jj, jj ∈ js -> accepted_at jj) /\
        (res o = Ok tt -> forall jj, accepted_at jj -> jj ∈ js)) /\
  (forall w, NoDup (crop_seq (trace (run sv a w)))).
Proof.
  split; [| split].
  - intros name ext jj. split; [reflexivity |].
    split; [apply parse_format_03d | apply format_03d_length].
  - intros dirs labels file_name name ext w Es. cbn zeta.
    pose proof (process_file_trace sv a dirs labels file_name name ext w Es) as H.
    cbn zeta in H. destruct H as ([k Hk] & _ & Hr).
    set (acc := accepted (min_image_size a) 0 (recognized sv a file_name)) in *.
    apply fmap_app_inv in Hk as (l1 & l2 & H1 & _ & Hacc).
    pose proof (accepted_increasing (min_image_size a) (recognized sv a file_name) 0)
      as [Hsorted _].
    fold acc in Hsorted. rewrite Hacc, fmap_app in Hsorted.
    exists (map position l1). split; [| split; [| split]].
    + rewrite H1. unfold crop_path_of. by rewrite <- list_fmap_compose.
    + by apply StronglySorted_app_1_l in Hsorted.
    + intros jj (c & -> & Hc)%list_elem_of_fmap.
      assert (Hin : c ∈ acc) by (rewrite Hacc; apply elem_of_app; by left).
      destruct c as [[j f] b]. apply accepted_spec in Hin as (_ & Hl & Hb & Hv).
      rewrite Nat.sub_0_r in Hl. by exists f, b.
    + intros Hok jj (f & b & Hl & Hb & Hv). rewrite Hok in Hr. destruct Hr as (Hfull & _).
      assert (Hlen : length l2 = O).
      { apply (f_equal length) in Hfull. rewrite H1, Hacc, !length_fmap, length_app in Hfull.
        lia. }
      destruct l2; [| discriminate Hlen]. rewrite app_nil_r in Hacc. subst l1.
      apply list_elem_of_fmap. exists (jj, f, b). split; [reflexivity |].
      apply accepted_spec. rewrite Nat.sub_0_r. split; [lia | done].
  - apply run_crops_NoDup.
Qed.

Lemma crop_file_names_witness :
  exists js,
    crop_seq (trace (process_file three_fields in_out out_dirs "/out/cropped/labels.txt"
                       "0000000001.png" one_image_opened))
      = map (fun jj => crop_path in_out out_dirs (cropped_file "0000000001" "png" jj)) js /\
    StronglySorted lt js.
Proof.
  destruct (crop_file_names three_fields in_out) as (_ & H & _).
  destruct (H out_dirs "/out/cropped/labels.txt" "0000000001.png" "0000000001" "png"
              one_image_opened eq_refl) as (js & Hjs & Hsorted & _).
  exists js. split; assumption.
Defined.

(** ** Label records and shapes *)




Lemma trace_bind {A B : Type} (m : M A) (k : A -> M B) (w : world) :
  (exists e, res (m w) = Raise e /\ res (bind m k w) = Raise e /\
             trace (bind m k w) = trace (m w)) \/
  (exists v, res (m w) = Ok v /\ res (bind m k w) = res (k v (final (m w))) /\
             trace (bind m k w) = (trace (m w) ++ trace (k v (final (m w))))%list).
Proof. unfold bind. destruct (m w) as [[v|e] w' t]; cbn; eauto. Qed.

Section Sync.
Variables (sv : services) (a : args) (dirs : list string) (labels : string).





End Sync.

(** ** A run that completes *)

Lemma run_ok_trace (sv : services) (a : args) (w : world) :
  res (run sv a w) = Ok tt ->
  exists t0 dirs labels files w1,
    let w0 := final (create_working_directory (output_path a)
                       ["recognized"; "cropped"; "converted"] w) in
    let o := process_files sv a dirs labels files w1 in
    Forall setup t0 /\ listing_ok w0 (input_path a) files /\ res o = Ok tt /\
    trace (run sv a w) = (t0 ++ OpenLabels labels :: trace o ++ [CloseLabels])%list /\
    final (run sv a w) = closed (final o).
Proof.
  rewrite run_eq.
  destruct (negb (path_exists w (input_path a))); [intros H; discriminate H |].
  destruct (isdir w (output_path a)) eqn:Ed.
  { unfold bind. rewrite Ed. intros H; discriminate H. }
  match goal with
  | |- context [bind ?v (batch sv a) w] =>
      assert (E : bind v (batch sv a) w =
                  bind (create_working_directory (output_path a)
                          ["recognized"; "cropped"; "converted"]) (batch sv a) w)
        by (unfold bind; rewrite Ed; reflexivity);
      rewrite E; clear E
  end.
  pose proof (create_working_directory_cases (output_path a)
                ["recognized"; "cropped"; "converted"] w) as Hc. cbn zeta in Hc.
  destruct (create_working_directory (output_path a) ["recognized"; "cropped"; "converted"] w)
    as [[dirs|e] w0 t0] eqn:Ec; cbn [res final trace] in Hc.
  2:{ rewrite (bind_eq_raise _ _ _ _ _ _ Ec). intros H; discriminate H. }
  rewrite (bind_eq_ok _ _ _ _ _ _ Ec). cbn [res final trace].
  destruct Hc as [[e' Hc] | (Hs & _)]; [discriminate Hc |].
  destruct (batch_cases sv a dirs w0) as [[e ->] | (files & labels & w1 & Hl & _ & _ & Hb)];
    [intros H; discriminate H |].
  cbn zeta in Hb. rewrite Hb.
  destruct (res (process_files sv a dirs labels files w1)) as [[]|e] eqn:Ep; cbn [res];
    [| intros H; discriminate H].
  intros _. exists t0, dirs, labels, files, w1. cbn zeta. rewrite Ep.
  cbn [res final trace]. done.
Qed.

(** ** Paths without a given character *)









(** ** Validation of the paths *)

Lemma batch_grows (sv : services) (a : args) (dirs : list string) (w : world) :
  grows w (final (batch sv a dirs w)).
Proof.
  destruct (batch_cases sv a dirs w) as [[e ->] | (files & labels & w1 & _ & Hg & _ & Hb)];
    [apply grows_refl |].
  cbn zeta in Hb. rewrite Hb.
  pose proof (process_files_grows sv a dirs labels files w1) as Hp.
  destruct (res (process_files sv a dirs labels files w1)); cbn [final].
  - eapply grows_trans; [exact Hg |]. eapply grows_trans; [exact Hp |]. split; done.
  - eapply grows_trans; [exact Hg | exact Hp].
Qed.






(** ** The label file handle *)

(** A run that completes has closed [labels]. *)
Lemma run_ok_closes (sv : services) (a : args) (w : world) :
  res (run sv a w) = Ok tt -> labels_open (final (run sv a w)) = false.
Proof.
  intros Hok. destruct (run_ok_trace sv a w Hok) as (t0 & dirs & labels & files & w1 & H).
  cbn zeta in H. destruct H as (_ & _ & _ & _ & ->). reflexivity.
Qed.

(** A run that raises once [labels] is open leaves it open. *)
Lemma run_raise_leaves_open (sv : services) (a : args) (w : world) (e : exn) (p : string) :
  res (run sv a w) = Raise e -> OpenLabels p ∈ trace (run sv a w) ->
  labels_open (final (run sv a w)) = true.
Proof.
  rewrite run_eq.
  destruct (negb (path_exists w (input_path a))); [by intros _ ?%elem_of_nil |].
  destruct (isdir w (output_path a)) eqn:Ed.
  { unfold bind. rewrite Ed. by intros _ ?%elem_of_nil. }
  match goal with
  | |- context [bind ?v (batch sv a) w] =>
      assert (E : bind v (batch sv a) w =
                  bind (create_working_directory (output_path a)
                          ["recognized"; "cropped"; "converted"]) (batch sv a) w)
        by (unfold bind; rewrite Ed; reflexivity);
      rewrite E; clear E
  end.
  pose proof (create_working_directory_cases (output_path a)
                ["recognized"; "cropped"; "converted"] w) as Hc. cbn zeta in Hc.
  assert (Hno : forall t, Forall setup t -> OpenLabels p ∉ t).
  { intros t Hs Hin. rewrite Forall_forall in Hs. by apply Hs in Hin. }
  destruct (create_working_directory (output_path a) ["recognized"; "cropped"; "converted"] w)
    as [[dirs|e0] w0 t0] eqn:Ec; cbn [res final trace] in Hc.
  2:{ rewrite (bind_eq_raise _ _ _ _ _ _ Ec). cbn [res final trace]. intros _ Hin.
      destruct Hc as [[e' [= _ _ ->]] | (Hs & _)]; [by apply elem_of_nil in Hin |].
      by apply Hno in Hin. }
  rewrite (bind_eq_ok _ _ _ _ _ _ Ec). cbn [res final trace].
  destruct Hc as [[e' Hc] | (Hs & _)]; [discriminate Hc |].
  destruct (batch_cases sv a dirs w0) as [[e1 ->] | (files & labels & w1 & _ & _ & Ho & Hb)].
  { cbn. rewrite app_nil_r. intros _ Hin. by apply Hno in Hin. }
  cbn zeta in Hb. rewrite Hb.
  pose proof (process_files_same_handle sv a dirs labels files w1) as Hh.
  destruct (res (process_files sv a dirs labels files w1)); cbn [res final].
  - intros H; discriminate H.
  - intros _ _. by rewrite Hh.
Qed.

(** C7 fails on the code: the image is processed, the second file name does
    not split, [run] raises [ValueError] and [labels] is never closed. *)
Theorem run_error_leaves_labels_open :
  res (run three_fields in_out image_and_notes) = Raise ValueError /\
  length (documents (trace (run three_fields in_out image_and_notes))) = 1%nat /\
  (OpenLabels "/out/cropped/labels.txt" ∈ trace (run three_fields in_out image_and_notes)) /\
  (CloseLabels ∉ trace (run three_fields in_out image_and_notes)) /\
  labels_open (final (run three_fields in_out image_and_notes)) = true.
Proof.
  split; [vm_compute; reflexivity |]. split; [vm_compute; reflexivity |].
  split; [| split; [| vm_compute; reflexivity]];
    let t := eval vm_compute in (trace (run three_fields in_out image_and_notes)) in
    change (trace (run three_fields in_out image_and_notes)) with t.
  - repeat (first [apply list_elem_of_here | apply list_elem_of_further]).
  - rewrite !not_elem_of_cons. repeat split; try discriminate. apply not_elem_of_nil.
Qed.

(** * Further properties *)

(** ** Boxes and the filter together *)



(** X1: the filter never fails on the box of a polygon with a point, and it
    accepts the polygon exactly when two of its points lie at least [size]
    apart in x and two at least [size] apart in y. *)
Theorem accepts_by_spread (P : list point) (size : Z) :
  P <> [] ->
  exists b,
    accepts size P = Ok b /\
    (b = true <->
     (exists p q, p ∈ P /\ q ∈ P /\ size <= x q - x p) /\
     (exists p q, p ∈ P /\ q ∈ P /\ size <= y q - y p)).
Proof.
  intros HP. destruct P as [|p0 ps]; [congruence |].
  destruct (get_bbox_extrema p0 ps) as (l & u & r & d & E & [Hl Hl'] & [Hu Hu'] & [Hr Hr'] & [Hd Hd']).
  unfold accepts. rewrite E. cbn [rbind]. rewrite valid_crop_size_eq.
  eexists. split; [reflexivity |].
  rewrite negb_true_iff, orb_false_iff, !Z.ltb_ge.
  apply list_elem_of_fmap in Hl as (pl & -> & Hpl), Hu as (pu & -> & Hpu),
                              Hr as (pr & -> & Hpr), Hd as (pd & -> & Hpd).
  split.
  - intros [Hw Hh]. split; [exists pl, pr | exists pu, pd]; auto.
  - intros [(p & q & Hp & Hq & Hx) (p' & q' & Hp' & Hq' & Hy)].
    pose proof (Hl' (x p) ltac:(apply list_elem_of_fmap; eauto)).
    pose proof (Hr' (x q) ltac:(apply list_elem_of_fmap; eauto)).
    pose proof (Hu' (y p') ltac:(apply list_elem_of_fmap; eauto)).
    pose proof (Hd' (y q') ltac:(apply list_elem_of_fmap; eauto)).
    lia.
Qed.

Lemma accepts_by_spread_witness :
  exists b,
    accepts 16 (quad 30 40) = Ok b /\
    (b = true <->
     (exists p q, p ∈ quad 30 40 /\ q ∈ quad 30 40 /\ 16 <= x q - x p) /\
     (exists p q, p ∈ quad 30 40 /\ q ∈ quad 30 40 /\ 16 <= y q - y p)).
Proof. apply (accepts_by_spread (quad 30 40) 16). discriminate. Defined.


Lemma is_min_app (l1 l2 : list Z) (m1 m2 : Z) :
  is_min l1 m1 -> is_min l2 m2 -> is_min (l1 ++ l2) (Z.min m1 m2).
Proof.
  intros [Hi1 Hl1] [Hi2 Hl2]. split.
  - apply elem_of_app. destruct (Z.min_spec m1 m2) as [[_ ->] | [_ ->]]; auto.
  - intros v [Hv | Hv]%elem_of_app; [apply Hl1 in Hv | apply Hl2 in Hv]; lia.
Qed.

Lemma is_max_app (l1 l2 : list Z) (m1 m2 : Z) :
  is_max l1 m1 -> is_max l2 m2 -> is_max (l1 ++ l2) (Z.max m1 m2).
Proof.
  intros [Hi1 Hl1] [Hi2 Hl2]. split.
  - apply elem_of_app. destruct (Z.max_spec m1 m2) as [[_ ->] | [_ ->]]; auto.
  - intros v [Hv | Hv]%elem_of_app; [apply Hl1 in Hv | apply Hl2 in Hv]; lia.
Qed.

Lemma get_bbox_ok_extrema (P : list point) (l u r d : Z) :
  get_bbox P = Ok [l; u; r; d] ->
  is_min (map x P) l /\ is_min (map y P) u /\ is_max (map x P) r /\ is_max (map y P) d.
Proof.
  destruct P as [|p ps]; [discriminate |].
  destruct (get_bbox_extrema p ps) as (l' & u' & r' & d' & E & H).
  rewrite E. by intros [= <- <- <- <-].
Qed.

(** X3: the box of two polygons put together is the smallest box around
    their two boxes. *)
Theorem get_bbox_app (P Q : list point) (lp up rp dp lq uq rq dq : Z) :
  get_bbox P = Ok [lp; up; rp; dp] ->
  get_bbox Q = Ok [lq; uq; rq; dq] ->
  get_bbox (P ++ Q) = Ok [Z.min lp lq; Z.min up uq; Z.max rp rq; Z.max dp dq].
Proof.
  intros (Hl & Hu & Hr & Hd)%get_bbox_ok_extrema (Hl' & Hu' & Hr' & Hd')%get_bbox_ok_extrema.
  destruct P as [|p ps]; [by destruct Hl as [?%elem_of_nil _] |].
  destruct (get_bbox_extrema p (ps ++ Q)) as (l & u & r & d & E & Il & Iu & Ir & Id).
  change (p :: ps ++ Q)%list with ((p :: ps) ++ Q)%list in *.
  rewrite E. rewrite map_app in Il, Iu, Ir, Id.
  rewrite (is_min_unique _ _ _ Il (is_min_app _ _ _ _ Hl Hl')).
  rewrite (is_min_unique _ _ _ Iu (is_min_app _ _ _ _ Hu Hu')).
  rewrite (is_max_unique _ _ _ Ir (is_max_app _ _ _ _ Hr Hr')).
  by rewrite (is_max_unique _ _ _ Id (is_max_app _ _ _ _ Hd Hd')).
Qed.

Lemma get_bbox_app_witness :
  get_bbox (quad 30 40 ++ map (translate 10 50) (quad 5 5)) = Ok [0; 0; 30; 55].
Proof.
  apply (get_bbox_app (quad 30 40) (map (translate 10 50) (quad 5 5))
           0 0 30 40 10 50 15 55); reflexivity.
Defined.

(** X4: the two corners a shape keeps of a box, [[left, upper]] and
    [[right, lower]], give the box back. *)
Theorem get_bbox_corners (P : list point) (left upper right lower : Z) :
  get_bbox P = Ok [left; upper; right; lower] ->
  get_bbox [ {| x := left; y := upper |}; {| x := right; y := lower |} ]
    = Ok [left; upper; right; lower].
Proof.
  intros [Hx Hy]%get_bbox_ordered. unfold get_bbox. cbn.
  rewrite !Z.gtb_ltb.
  destruct (Z.ltb_spec right left), (Z.ltb_spec lower upper),
           (Z.ltb_spec left right), (Z.ltb_spec upper lower);
    repeat f_equal; lia.
Qed.

Lemma get_bbox_corners_witness :
  get_bbox [ {| x := 0; y := 0 |}; {| x := 30; y := 40 |} ] = Ok [0; 0; 30; 40].
Proof. apply (get_bbox_corners (quad 30 40) 0 0 30 40). reflexivity. Defined.

(** X5: a box accepted for one [size] is accepted for every smaller one. *)
Theorem valid_crop_size_smaller (left upper right lower size size' : Z) :
  size' <= size ->
  valid_crop_size [left; upper; right; lower] size = Ok true ->
  valid_crop_size [left; upper; right; lower] size' = Ok true.
Proof.
  rewrite !valid_crop_size_eq. intros Hs [= H]. f_equal.
  apply negb_true_iff, orb_false_iff in H as [H1 H2]. apply Z.ltb_ge in H1, H2.
  apply negb_true_iff, orb_false_iff. split; apply Z.ltb_ge; lia.
Qed.

Lemma valid_crop_size_smaller_witness : valid_crop_size [10; 10; 50; 60] 8 = Ok true.
Proof. apply (valid_crop_size_smaller 10 10 50 60 16 8); [lia | reflexivity]. Defined.

(** X6: on a list that is not a box [valid_crop_size] raises [IndexError]
    when the list has fewer than three items, or has three and a width that
    passes; a list of three with too small a width is rejected before the
    missing item is read.  It raises nothing else. *)
Theorem valid_crop_size_short (bbox : list Z) (size : Z) :
  match bbox with
  | [] | [_] | [_; _] => valid_crop_size bbox size = Raise IndexError
  | [b0; _; b2] =>
      valid_crop_size bbox size = if b2 - b0 <? size then Ok false else Raise IndexError
  | b0 :: b1 :: b2 :: b3 :: _ =>
      valid_crop_size bbox size = Ok (negb ((b2 - b0 <? size) || (b3 - b1 <? size)))
  end.
Proof.
  destruct bbox as [|b0 [|b1 [|b2 [|b3 rest]]]]; try reflexivity.
  change (valid_crop_size (b0 :: b1 :: b2 :: b3 :: rest) size)
    with (valid_crop_size [b0; b1; b2; b3] size).
  apply valid_crop_size_eq.
Qed.

(** ** File names *)

(** X7: a name and an extension without a dot, joined by a dot, split into
    the two again. *)
Theorem split_name_ext_join (name ext : string) :
  contains "." name = false -> contains "." ext = false ->
  split_name_ext (name +:+ "." +:+ ext) = Ok (name, ext).
Proof.
  intros Hn He.
  pose proof (split_name_ext_ok (name +:+ "." +:+ ext)) as Hok.
  pose proof (split_length "." (name +:+ "." +:+ ext)) as Hlen.
  rewrite !count_char_app in Hlen.
  apply count_char_0 in Hn as Hn0, He as He0. rewrite Hn0, He0 in Hlen. cbn in Hlen.
  unfold split_name_ext in *.
  destruct (split "." (name +:+ "." +:+ ext)) as [|n [|e [|? ?]]]; try discriminate Hlen.
  destruct (Hok n e eq_refl) as (Heq & Hn' & He').
  change (?a +:+ "." +:+ ?b) with (a +:+ String "." b) in Heq.
  apply cut_at_first in Heq as [-> ->]; done.
Qed.

Lemma split_name_ext_join_witness :
  split_name_ext ("0000000001" +:+ "." +:+ "png") = Ok ("0000000001", "png").
Proof. apply split_name_ext_join; reflexivity. Defined.

(** X8: a crop file name is built from one base name without a dot, one
    extension and one index only. *)
Theorem cropped_file_unique (name ext name' ext' : string) (jj jj' : nat) :
  contains "." name = false -> contains "." name' = false ->
  cropped_file name ext jj = cropped_file name' ext' jj' ->
  name = name' /\ ext = ext' /\ jj = jj'.
Proof. apply cropped_file_inj. Qed.

Lemma cropped_file_unique_witness :
  "a_b" = "a_b" /\ "png" = "png" /\ 12%nat = 12%nat.
Proof. apply (cropped_file_unique "a_b" "png" "a_b" "png" 12 12); reflexivity. Defined.

(** ** The listing of the input directory *)

#[local] Instance str_le_total : Total str_le.
Proof. intros s1 s2. apply String.leb_total. Qed.

Lemma strip_prefix_self (prefix n : string) : strip_prefix prefix (prefix +:+ n) = Some n.
Proof.
  induction prefix as [|c prefix IH]; [reflexivity |].
  rewrite string_app_cons. cbn [strip_prefix]. by rewrite Ascii.eqb_refl.
Qed.

Lemma entry_of_iff (p key n : string) :
  entry_of p key = Some n <->
  key = path_join p "" +:+ n /\ n <> "" /\ contains "/" n = false.
Proof.
  split.
  - intros H. destruct (entry_of_key _ _ _ H) as [-> Hs]. repeat split; [| done].
    unfold entry_of in H. rewrite strip_prefix_self in H.
    intros ->. discriminate H.
  - intros (-> & Hn & Hs). unfold entry_of. rewrite strip_prefix_self, Hs.
    by apply String.eqb_neq in Hn as ->.
Qed.

(** X9: on a directory [get_files] changes nothing and returns, with their
    number, the names of its entries that do not start with a dot and are
    not the excepted name: each once, in ascending order. *)
Theorem get_files_listing (path except_file : string) (w : world) :
  isdir w path = true ->
  exists files,
    get_files path except_file w = ret (files, length files) w /\
    Sorted str_le files /\ NoDup files /\
    forall f, f ∈ files <->
      (path_join path "" +:+ f) ∈ fs_dirs w ∪ dom (fs_files w) /\
      f <> "" /\ contains "/" f = false /\
      starts_with "." f = false /\ f <> basename except_file.
Proof.
  intros Hd. unfold get_files.
  assert (E : listdir path w =
              ret (omap (entry_of path) (elements (fs_dirs w ∪ dom (fs_files w)))) w)
    by (unfold listdir; by rewrite Hd).
  rewrite (bind_eq_ret _ _ _ _ E).
  set (keys := elements (fs_dirs w ∪ dom (fs_files w))).
  set (keep := fun file => negb (starts_with "." file || String.eqb file (basename except_file))).
  exists (merge_sort str_le (List.filter keep (omap (entry_of path) keys))).
  split; [reflexivity |]. split; [apply Sorted_merge_sort, _ |].
  pose proof (merge_sort_Permutation str_le (List.filter keep (omap (entry_of path) keys)))
    as Hperm.
  split.
  - rewrite Hperm.
    apply NoDup_ListNoDup, List.NoDup_filter, NoDup_ListNoDup, NoDup_omap_inj;
      [| apply NoDup_elements].
    intros k1 k2 n H1 H2. apply entry_of_key in H1 as [-> _], H2 as [-> _]. done.
  - intros f. rewrite Hperm, list_elem_of_In, List.filter_In, <- list_elem_of_In.
    rewrite list_elem_of_omap. unfold keep.
    rewrite negb_true_iff, orb_false_iff, String.eqb_neq. split.
    + intros [(k & Hk & Ek) [Hdot Hex]]. apply entry_of_iff in Ek as (-> & Hn & Hs).
      apply elem_of_elements in Hk. done.
    + intros (Hk & Hn & Hs & Hdot & Hex). split; [| done].
      exists (path_join path "" +:+ f). split; [by apply elem_of_elements |].
      by apply entry_of_iff.
Qed.

Lemma get_files_listing_witness :
  exists files,
    get_files "/in" "" image_and_notes = ret (files, length files) image_and_notes /\
    Sorted str_le files /\ NoDup files.
Proof.
  destruct (get_files_listing "/in" "" image_and_notes) as (files & E & Hs & Hn & _);
    [vm_compute; reflexivity |].
  exists files. auto.
Defined.

(** X10: on a path that is not a directory [get_files] raises and changes
    nothing: [FileNotFoundError] when nothing is there, an [OSError] when a
    file is. *)
Theorem get_files_not_directory (path except_file : string) (w : world) :
  isdir w path = false ->
  get_files path except_file w =
    raise (if isfile w path then OSError else FileNotFoundError) w.
Proof. intros Hd. unfold get_files, listdir, bind. by rewrite Hd. Qed.

Lemma get_files_not_directory_witness :
  get_files "/in/notes" "" image_and_notes = raise OSError image_and_notes /\
  get_files "/nowhere" "" image_and_notes = raise FileNotFoundError image_and_notes.
Proof.
  split.
  - apply (get_files_not_directory "/in/notes" "" image_and_notes). vm_compute. reflexivity.
  - apply (get_files_not_directory "/nowhere" "" image_and_notes). vm_compute. reflexivity.
Defined.

(** ** The working directories *)



(** X12: when something is at [root] already, [create_working_directory]
    raises [FileExistsError] and makes nothing. *)
Theorem create_working_directory_exists (root : string) (sub_dirs : list string) (w : world) :
  root <> "" -> path_exists w root = true ->
  create_working_directory root sub_dirs w = raise FileExistsError w.
Proof.
  intros Hne Hex. unfold create_working_directory, makedirs, bind.
  apply String.eqb_neq in Hne. by rewrite Hne, Hex.
Qed.

Lemma create_working_directory_exists_witness :
  create_working_directory "/in" ["recognized"; "cropped"; "converted"] one_image
    = raise FileExistsError one_image.
Proof.
  apply create_working_directory_exists; [discriminate | vm_compute; reflexivity].
Defined.

(** ** The recognition request *)

(** X13: a request that returns has written one file, the reply of the
    service, at [output_path/subdir/name_clova.json], the path it returns;
    reading that file gives the reply back, and every other path is as it
    was. *)
Theorem request_round_trip (sv : services) (a : args) (subdir image_file json_file : string)
    (w : world) :
  let o := request_recognition_from_clova_ocr sv a subdir image_file w in
  res o = Ok json_file ->
  exists name ext r,
    split_name_ext image_file = Ok (name, ext) /\
    post sv (path_join (input_path a) image_file) = Json r /\
    json_file = path_join (path_join (output_path a) subdir) (name +:+ "_clova.json") /\
    trace o = [DumpClova json_file r] /\
    load_clova json_file (final o) = ret r (final o) /\
    fs_dirs (final o) = fs_dirs w /\
    forall p, p <> json_file -> fs_files (final o) !! p = fs_files w !! p.
Proof.
  cbn zeta. intros Hok.
  destruct (request_cases sv a subdir image_file w) as [[e E] | (name & ext & r & Es & Ep & E)];
    rewrite E in Hok |- *; [discriminate Hok |].
  injection Hok as <-. exists name, ext, r. cbn [res final trace].
  repeat split; try done.
  - apply load_clova_written.
  - intros p Hp. cbn. by rewrite lookup_insert_ne.
Qed.

Lemma request_round_trip_witness :
  exists name ext r,
    split_name_ext "0000000001.png" = Ok (name, ext) /\
    post three_fields (path_join (input_path in_out) "0000000001.png") = Json r /\
    "/out/recognized/0000000001_clova.json" =
      path_join (path_join (output_path in_out) "/out/recognized") (name +:+ "_clova.json").
Proof.
  destruct (request_round_trip three_fields in_out "/out/recognized" "0000000001.png"
              "/out/recognized/0000000001_clova.json" one_image_opened)
    as (name & ext & r & H1 & H2 & H3 & _); [vm_compute; reflexivity |].
  exists name, ext, r. auto.
Defined.



(** ** One image, step by step *)

Lemma image_open_size (p : string) (w : world) (size : Z * Z) :
  image_open p w = ret size w -> fs_files w !! p = Some (Image (fst size) (snd size)).
Proof.
  unfold image_open, bind, read_file.
  destruct (fs_files w !! p) as [[wd ht| | |]|]; cbn; try discriminate.
  by intros [= <-].
Qed.

Lemma process_file_outcome (sv : services) (a : args) (dirs : list string)
    (labels file_name name ext : string) (w : world) :
  split_name_ext file_name = Ok (name, ext) ->
  image_outcome sv a dirs file_name name ext w (process_file sv a dirs labels file_name w).
Proof.
  intros Es. unfold image_outcome. cbn zeta. unfold process_file.
  rewrite Es, bind_lift_ok. cbn [fst snd].
  destruct (index dirs 1) as [d1|e] eqn:Ed1.
  2:{ left. by exists e. }
  rewrite bind_lift_ok.
  destruct (request_cases sv a d1 file_name w) as [[e Er] | (n & x & r & Es' & Ep & Er)].
  { left. exists e. by rewrite (bind_eq_raise _ _ _ _ _ _ Er). }
  rewrite Es in Es'. injection Es' as <- <-.
  right. exists (path_join (path_join (output_path a) d1) (name +:+ "_clova.json")), r.
  split; [exact Ep |].
  rewrite (bind_eq_ok _ _ _ _ _ _ Er). cbn [res final trace].
  rewrite (bind_eq_ok _ _ _ _ _ _ (load_clova_written _ _ _)). cbn [res final trace app].
  set (jf := path_join (path_join (output_path a) d1) (name +:+ "_clova.json")).
  set (w1 := with_file w jf (ClovaJson r)).
  destruct (image_open_cases (path_join (input_path a) file_name) w1)
    as [[e Ei] | [size Ei]].
  { rewrite (bind_eq_raise _ _ _ _ _ _ Ei). left. exists e, []. cbn.
    split; [done |]. split; [done | apply prefix_nil]. }
  rewrite (bind_eq_ok _ _ _ _ _ _ Ei). cbn [res final trace app].
  apply image_open_size in Ei as Hsize.
  unfold recognized. rewrite Ep.
  destruct r as [|fields].
  { rewrite bind_lift_raise. left. exists KeyError, []. cbn.
    split; [done |]. split; [done | apply prefix_nil]. }
  rewrite bind_lift_ok.
  pose proof (crop_fields_trace sv a dirs labels name ext fields 0 [] w1) as Hc.
  cbn zeta in Hc. destruct Hc as [Hpre Hok].
  set (acc := accepted (min_image_size a) 0 fields) in *.
  destruct (crop_fields sv a dirs labels name ext 0 fields [] w1)
    as [[shapes|e] w2 t] eqn:Ec; cbn [res trace] in *.
  2:{ rewrite (bind_eq_raise _ _ _ _ _ _ Ec). cbn [res trace app].
      left. by exists e, t. }
  destruct (Hok shapes eq_refl) as [-> ->]. clear Hok Hpre.
  rewrite (bind_eq_ok _ _ _ _ _ _ Ec). cbn [res final trace app].
  destruct (index dirs 3) as [d3|e] eqn:Ed3.
  2:{ rewrite bind_lift_raise. cbn [raise res trace]. rewrite app_nil_r.
      left. eexists e, _. split; [done |]. split; [reflexivity | done]. }
  apply index_ok in Ed3. rewrite bind_lift_ok.
  destruct (copy_file_cases (path_join (input_path a) file_name) (path_join d3 file_name) w2)
    as [[e Ef] | [c Ef]].
  { rewrite (bind_eq_raise _ _ _ _ _ _ Ef). cbn [res trace]. rewrite app_nil_r.
    left. eexists e, _. split; [done |]. split; [reflexivity | done]. }
  rewrite (bind_eq_ok _ _ _ _ _ _ Ef). cbn [res final trace].
  match goal with
  | |- context [write_file ?p ?c ?ev ?w3] =>
      destruct (write_file_cases p c ev w3) as [[e Ew'] | Ew']; rewrite Ew'
  end; cbn [raise res trace app].
  - right. left. exists e, (path_join d3 file_name). rewrite ?app_nil_r. done.
  - right. right. exists d3, size. done.
Qed.

(** A prefix of the output of the field loop: the pairs of a crop and its
    record for the first accepted fields, and at most one crop more. *)
Lemma crop_events_prefix (a : args) (dirs : list string) (name ext : string)
    (cs : list (nat * field * list Z)) :
  forall t, t `prefix_of` flat_map (crop_events a dirs name ext) cs ->
    exists cs1,
      cs1 `prefix_of` cs /\
      label_texts t = map (record_of name ext) cs1 /\
      (crop_seq t = map (crop_path_of a dirs name ext) cs1 \/
       exists c, (cs1 ++ [c])%list `prefix_of` cs /\
                 crop_seq t = map (crop_path_of a dirs name ext) (cs1 ++ [c])%list).
Proof.
  induction cs as [|c cs IH]; intros t Ht; cbn [flat_map] in Ht.
  - apply prefix_nil_inv in Ht as ->. exists []. split; [done |]. split; [done | by left].
  - unfold crop_events at 1 in Ht. cbn [app] in Ht.
    destruct t as [|ev1 t].
    { exists []. split; [apply prefix_nil |]. split; [done | by left]. }
    apply prefix_cons_inv_1 in Ht as E1. apply prefix_cons_inv_2 in Ht.
    subst ev1. destruct t as [|ev2 t].
    { exists []. split; [apply prefix_nil |]. split; [done |]. right.
      exists c. split; [apply prefix_cons, prefix_nil | done]. }
    apply prefix_cons_inv_1 in Ht as E2. apply prefix_cons_inv_2 in Ht. subst ev2.
    destruct (IH t Ht) as (cs1 & Hp & Hl & Hc).
    exists (c :: cs1). split; [by apply prefix_cons |].
    split; [cbn; by rewrite <- Hl |].
    destruct Hc as [Hc | (c' & Hp' & Hc)].
    + left. cbn. by rewrite <- Hc.
    + right. exists c'. split; [by apply prefix_cons |]. cbn. by rewrite <- Hc.
Qed.

(** X15: every record written to [labels.txt] for an image names the crop
    saved just before it: the record and the crop at the same place in the
    output of the image carry the same crop file name, that of an accepted
    position of the recognition result, and the record carries the text of
    the field there. *)
Theorem records_name_their_crops (sv : services) (a : args) (dirs : list string)
    (labels file_name name ext : string) (w : world) (i : nat) (record : string) :
  split_name_ext file_name = Ok (name, ext) ->
  let t := trace (process_file sv a dirs labels file_name w) in
  label_texts t !! i = Some record ->
  exists jj f,
    recognized sv a file_name !! jj = Some f /\
    record = label_record (cropped_file name ext jj) (inferText f) /\
    crop_seq t !! i = Some (crop_path a dirs (cropped_file name ext jj)).
Proof.
  intros Es. cbn zeta. intros Hi.
  pose proof (process_file_outcome sv a dirs labels file_name name ext w Es) as H.
  unfold image_outcome in H. cbn zeta in H.
  set (acc := accepted (min_image_size a) 0 (recognized sv a file_name)) in *.
  set (o := process_file sv a dirs labels file_name w) in *.
  assert (Hshape : exists t', t' `prefix_of` flat_map (crop_events a dirs name ext) acc /\
                              label_texts (trace o) = label_texts t' /\
                              crop_seq (trace o) = crop_seq t').
  { destruct H as [[e ->] | (jf & r & _ & [H | [H | H]])].
    - exists []. split; [apply prefix_nil | done].
    - destruct H as (e & t' & _ & -> & Hp). by exists t'.
    - destruct H as (e & dst & _ & ->). eexists. split; [reflexivity |].
      rewrite label_texts_clova, crop_seq_clova, label_texts_app, crop_seq_app.
      cbn. by rewrite !app_nil_r.
    - destruct H as (d3 & size & _ & _ & _ & ->). eexists. split; [reflexivity |].
      rewrite label_texts_clova, crop_seq_clova, label_texts_app, crop_seq_app.
      cbn. by rewrite !app_nil_r. }
  destruct Hshape as (t' & Hp & Hl & Hc). rewrite Hl in Hi. rewrite Hc.
  destruct (crop_events_prefix a dirs name ext acc t' Hp) as (cs1 & Hp1 & Hl1 & Hc1).
  rewrite Hl1 in Hi. apply list_lookup_fmap_Some in Hi as (c & -> & Hci).
  assert (Hin : c ∈ acc).
  { destruct Hp1 as [k ->]. apply elem_of_app. left. by eapply list_elem_of_lookup_2. }
  destruct c as [[jj f] b]. apply accepted_spec in Hin as (_ & Hf & _).
  rewrite Nat.sub_0_r in Hf. exists jj, f. split; [done |]. split; [done |].
  destruct Hc1 as [-> | (c' & _ & ->)].
  - by rewrite list_lookup_fmap, Hci.
  - rewrite list_lookup_fmap, lookup_app_l by (by eapply lookup_lt_Some).
    by rewrite Hci.
Qed.

Lemma records_name_their_crops_witness :
  exists jj f,
    recognized three_fields in_out "0000000001.png" !! jj = Some f /\
    label_record "0000000001_002.png" "efgh"
      = label_record (cropped_file "0000000001" "png" jj) (inferText f).
Proof.
  destruct (records_name_their_crops three_fields in_out out_dirs "/out/cropped/labels.txt"
              "0000000001.png" "0000000001" "png" one_image_opened 1
              (label_record "0000000001_002.png" "efgh") eq_refl)
    as (jj & f & H1 & H2 & _); [vm_compute; reflexivity |].
  by exists jj, f.
Defined.

(** X16: when the processing of an image has put out anything, the first
    thing is the reply of the service, written before any crop, record,
    copy or document of the image. *)
Theorem reply_written_first (sv : services) (a : args) (dirs : list string)
    (labels file_name : string) (w : world) :
  let t := trace (process_file sv a dirs labels file_name w) in
  t <> [] ->
  exists json_file r rest,
    t = DumpClova json_file r :: rest /\
    post sv (path_join (input_path a) file_name) = Json r /\
    Forall (fun ev => match ev with DumpClova _ _ => False | _ => True end) rest.
Proof.
  cbn zeta.
  destruct (split_name_ext file_name) as [[name ext]|e] eqn:Es.
  2:{ unfold process_file. rewrite Es. intros H. by destruct H. }
  pose proof (process_file_outcome sv a dirs labels file_name name ext w Es) as H.
  unfold image_outcome in H. cbn zeta in H.
  assert (Hfull : forall cs, Forall (fun ev => match ev with DumpClova _ _ => False | _ => True end)
                               (flat_map (crop_events a dirs name ext) cs)).
  { induction cs as [|c cs IH]; [constructor |]. cbn. by repeat constructor. }
  destruct H as [[e ->] | (jf & r & Hp & [H | [H | H]])]; [intros H; by destruct H | ..];
    intros _; exists jf, r.
  - destruct H as (e & t' & _ & -> & [k Hk]). exists t'. split; [done |]. split; [done |].
    specialize (Hfull (accepted (min_image_size a) 0 (recognized sv a file_name))).
    rewrite Hk in Hfull. by apply Forall_app in Hfull as [? _].
  - destruct H as (e & dst & _ & ->). eexists. split; [reflexivity |]. split; [done |].
    apply Forall_app. split; [apply Hfull | by repeat constructor].
  - destruct H as (d3 & size & _ & _ & _ & ->). eexists. split; [reflexivity |].
    split; [done |]. apply Forall_app. split; [apply Hfull | by repeat constructor].
Qed.

Lemma reply_written_first_witness :
  exists json_file r rest,
    trace (process_file three_fields in_out out_dirs "/out/cropped/labels.txt"
             "0000000001.png" one_image_opened) = DumpClova json_file r :: rest.
Proof.
  destruct (reply_written_first three_fields in_out out_dirs "/out/cropped/labels.txt"
              "0000000001.png" one_image_opened) as (jf & r & rest & H & _);
    [vm_compute; discriminate |].
  by exists jf, r, rest.
Defined.

(** X17: the document of an image is the last thing written for it, to
    [dirs[3]/name.json], after its crops, its records and the copy of the
    image; it holds the file name as [imagePath] and one shape for each
    accepted field, in the order of the fields. *)
Theorem document_written_last (sv : services) (a : args) (dirs : list string)
    (labels file_name name ext : string) (w : world) :
  split_name_ext file_name = Ok (name, ext) ->
  let o := process_file sv a dirs labels file_name w in
  res o = Ok tt ->
  exists d3 size rest,
    dirs !! 3%nat = Some d3 /\
    trace o = (rest ++ [CopyFile (path_join (input_path a) file_name) (path_join d3 file_name);
                        DumpLabelme (path_join d3 (name +:+ ".json"))
                          (document_of file_name
                             (accepted (min_image_size a) 0 (recognized sv a file_name))
                             size)])%list /\
    documents rest = [] /\
    length (crop_seq rest) = length (accepted (min_image_size a) 0 (recognized sv a file_name)) /\
    length (label_texts rest) = length (accepted (min_image_size a) 0 (recognized sv a file_name)).
Proof.
  intros Es. cbn zeta. intros Hok.
  pose proof (process_file_outcome sv a dirs labels file_name name ext w Es) as H.
  unfold image_outcome in H. cbn zeta in H.
  destruct H as [[e E] | (jf & r & Hp & [H | [H | H]])].
  - rewrite E in Hok. discriminate Hok.
  - destruct H as (e & t' & E & _). rewrite E in Hok. discriminate Hok.
  - destruct H as (e & dst & E & _). rewrite E in Hok. discriminate Hok.
  - destruct H as (d3 & size & Hd3 & _ & _ & Ht). exists d3, size.
    eexists (DumpClova jf r :: _). split; [done |]. split; [exact Ht |].
    rewrite documents_clova, crop_seq_clova, label_texts_clova.
    rewrite documents_crop_events, crop_seq_crop_events, label_texts_crop_events.
    by rewrite !length_map.
Qed.

Lemma document_written_last_witness :
  exists d3 size rest,
    out_dirs !! 3%nat = Some d3 /\
    trace (process_file three_fields in_out out_dirs "/out/cropped/labels.txt"
             "0000000001.png" one_image_opened)
    = (rest ++ [CopyFile (path_join "/in" "0000000001.png") (path_join d3 "0000000001.png");
                DumpLabelme (path_join d3 ("0000000001" +:+ ".json"))
                  (document_of "0000000001.png"
                     (accepted 16 0 (recognized three_fields in_out "0000000001.png"))
                     size)])%list.
Proof.
  destruct (document_written_last three_fields in_out out_dirs "/out/cropped/labels.txt"
              "0000000001.png" "0000000001" "png" one_image_opened eq_refl)
    as (d3 & size & rest & H1 & H2 & _); [vm_compute; reflexivity |].
  by exists d3, size, rest.
Defined.

Lemma no_document_trace (sv : services) (a : args) (dirs : list string)
    (labels file_name : string) (w : world) (e : exn) :
  res (process_file sv a dirs labels file_name w) = Raise e ->
  documents (trace (process_file sv a dirs labels file_name w)) = [].
Proof.
  intros Hr.
  destruct (split_name_ext file_name) as [[name ext]|e'] eqn:Es.
  2:{ unfold process_file. by rewrite Es. }
  pose proof (process_file_trace sv a dirs labels file_name name ext w Es) as H.
  cbn zeta in H. rewrite Hr in H. apply H.
Qed.

(** X18: when the processing of an image raises, no document is written
    for it, whatever crops and records were written before. *)
Theorem no_document_on_error (sv : services) (a : args) (dirs : list string)
    (labels file_name : string) (w : world) (e : exn) :
  res (process_file sv a dirs labels file_name w) = Raise e ->
  documents (trace (process_file sv a dirs labels file_name w)) = [].
Proof. apply no_document_trace. Qed.

Lemma no_document_on_error_witness :
  documents (trace (process_file no_vertices in_out out_dirs "/out/cropped/labels.txt"
                      "0000000001.png" one_image_opened)) = [].
Proof.
  apply (no_document_on_error no_vertices in_out out_dirs "/out/cropped/labels.txt"
           "0000000001.png" one_image_opened ValueError).
  vm_compute. reflexivity.
Defined.

Lemma shape_of_accepted (size : Z) (fields : list field) (c : nat * field * list Z) :
  c ∈ accepted size 0 fields ->
  exists l u r d,
    snd c = [l; u; r; d] /\ snd (fst c) ∈ fields /\
    get_bbox (vertices (snd (fst c))) = Ok [l; u; r; d] /\
    size <= r - l /\ size <= d - u.
Proof.
  destruct c as [[jj f] b]. intros (_ & Hf & Hb & Hv)%accepted_spec. cbn [fst snd].
  destruct (get_bbox_length _ _ Hb) as (l & u & r & d & ->).
  exists l, u, r, d. split; [done |]. split; [by eapply list_elem_of_lookup_2 |].
  split; [done |]. rewrite valid_crop_size_eq in Hv. injection Hv as Hv.
  apply negb_true_iff, orb_false_iff in Hv as [H1 H2]. apply Z.ltb_ge in H1, H2. done.
Qed.

(** X19: every shape of a document an image gets is the box of a field of
    its recognition result that passes the filter: its label is the text of
    the field, its points are the upper left and the lower right corner of
    the box of the vertices, and the box is at least [min_image_size] wide
    and high.  Rejected fields leave nothing in the document. *)
Theorem shapes_are_accepted_boxes (sv : services) (a : args) (dirs : list string)
    (labels file_name : string) (w : world) (doc : labelme) (s : shape) :
  doc ∈ documents (trace (process_file sv a dirs labels file_name w)) ->
  s ∈ shapes doc ->
  imagePath doc = file_name /\
  exists f left upper right lower,
    f ∈ recognized sv a file_name /\
    get_bbox (vertices f) = Ok [left; upper; right; lower] /\
    label s = inferText f /\
    points s = [[left; upper]; [right; lower]] /\
    group_id s = None /\ shape_type s = "rectangle" /\
    min_image_size a <= right - left /\ min_image_size a <= lower - upper.
Proof.
  intros Hdoc Hs.
  destruct (split_name_ext file_name) as [[name ext]|e'] eqn:Es.
  2:{ unfold process_file in Hdoc. rewrite Es in Hdoc. by apply elem_of_nil in Hdoc. }
  destruct (res (process_file sv a dirs labels file_name w)) as [[]|e] eqn:Er.
  2:{ rewrite (no_document_trace sv a dirs labels file_name w e Er) in Hdoc.
      by apply elem_of_nil in Hdoc. }
  pose proof (process_file_outcome sv a dirs labels file_name name ext w Es) as H.
  unfold image_outcome in H. cbn zeta in H.
  destruct H as [[e E] | (jf & reply & Hp & [H | [H | H]])].
  - rewrite E in Er. discriminate Er.
  - destruct H as (e & t' & E & _). rewrite E in Er. discriminate Er.
  - destruct H as (e & dst & E & _). rewrite E in Er. discriminate Er.
  - destruct H as (d3 & size & _ & _ & _ & Ht). rewrite Ht in Hdoc.
    rewrite documents_clova, documents_app, documents_crop_events in Hdoc.
    cbn in Hdoc. apply list_elem_of_singleton in Hdoc as ->.
    split; [reflexivity |]. cbn [document_of shapes] in Hs.
    apply list_elem_of_fmap in Hs as (c & -> & Hc).
    destruct (shape_of_accepted _ _ _ Hc) as (l & u & r & d & Hb & Hf & Hg & Hw & Hh).
    exists (snd (fst c)), l, u, r, d. unfold shape_of. rewrite Hb. cbn. done.
Qed.

Lemma shapes_are_accepted_boxes_witness :
  exists f left upper right lower,
    f ∈ recognized three_fields in_out "0000000001.png" /\
    get_bbox (vertices f) = Ok [left; upper; right; lower] /\
    "efgh" = inferText f /\ 16 <= right - left /\ 16 <= lower - upper.
Proof.
  destruct (shapes_are_accepted_boxes three_fields in_out out_dirs "/out/cropped/labels.txt"
              "0000000001.png" one_image_opened
              (document_of "0000000001.png"
                 (accepted 16 0 (recognized three_fields in_out "0000000001.png")) (100, 80))
              {| label := "efgh"; points := [[0; 0]; [20; 16]]; group_id := None;
                 shape_type := "rectangle"; flags := [] |})
    as (_ & f & l & u & r & d & H1 & H2 & H3 & _ & _ & _ & H4 & H5).
  - vm_compute. apply list_elem_of_here.
  - vm_compute. apply list_elem_of_further, list_elem_of_here.
  - exists f, l, u, r, d. auto.
Defined.

(** ** The whole batch, step by step *)

Lemma crop_events_image (a : args) (dirs : list string) (name ext : string)
    (cs : list (nat * field * list Z)) :
  Forall image_event (flat_map (crop_events a dirs name ext) cs).
Proof. induction cs as [|c cs IH]; [constructor |]. cbn. by repeat constructor. Qed.

Lemma process_file_events (sv : services) (a : args) (dirs : list string)
    (labels file_name : string) (w : world) :
  Forall image_event (trace (process_file sv a dirs labels file_name w)).
Proof.
  destruct (split_name_ext file_name) as [[name ext]|e] eqn:Es.
  2:{ unfold process_file. rewrite Es. constructor. }
  pose proof (process_file_outcome sv a dirs labels file_name name ext w Es) as H.
  unfold image_outcome in H. cbn zeta in H.
  pose proof (crop_events_image a dirs name ext
                (accepted (min_image_size a) 0 (recognized sv a file_name))) as Hfull.
  destruct H as [[e ->] | (jf & r & Hp & [H | [H | H]])]; [constructor | ..].
  - destruct H as (e & t' & _ & -> & [k Hk]). constructor; [exact I |].
    rewrite Hk in Hfull. by apply Forall_app in Hfull as [? _].
  - destruct H as (e & dst & _ & ->). constructor; [exact I |].
    apply Forall_app. split; [done | by repeat constructor].
  - destruct H as (d3 & size & _ & _ & _ & ->). constructor; [exact I |].
    apply Forall_app. split; [done | by repeat constructor].
Qed.

Lemma process_files_events (sv : services) (a : args) (dirs : list string)
    (labels : string) (files : list string) :
  forall w, Forall image_event (trace (process_files sv a dirs labels files w)).
Proof.
  induction files as [|f rest IH]; intros w; cbn [process_files]; [constructor |].
  destruct (trace_bind (process_file sv a dirs labels f)
              (fun _ => process_files sv a dirs labels rest) w)
    as [(e & _ & _ & ->) | (v & _ & _ & ->)]; [apply process_file_events |].
  apply Forall_app. split; [apply process_file_events | apply IH].
Qed.

Lemma process_file_counts (sv : services) (a : args) (dirs : list string)
    (labels file_name : string) (w : world) :
  let o := process_file sv a dirs labels file_name w in
  (length (label_texts (trace o)) <= length (crop_seq (trace o)) <=
     length (label_texts (trace o)) + 1)%nat /\
  (res o = Ok tt -> length (crop_seq (trace o)) = length (label_texts (trace o))).
Proof.
  cbn zeta.
  destruct (split_name_ext file_name) as [[name ext]|e] eqn:Es.
  2:{ unfold process_file. rewrite Es. cbn. split; [lia | intros H; discriminate H]. }
  pose proof (process_file_outcome sv a dirs labels file_name name ext w Es) as H.
  unfold image_outcome in H. cbn zeta in H.
  set (acc := accepted (min_image_size a) 0 (recognized sv a file_name)) in *.
  destruct H as [[e ->] | (jf & r & Hp & [H | [H | H]])].
  - cbn. split; [lia | intros H; discriminate H].
  - destruct H as (e & t' & -> & -> & Hpre). split; [| intros H; discriminate H].
    rewrite label_texts_clova, crop_seq_clova.
    destruct (crop_events_prefix a dirs name ext acc t' Hpre) as (cs1 & _ & -> & [-> | Hc]).
    + rewrite !length_map. lia.
    + destruct Hc as (c & _ & ->). rewrite !length_map, length_app. cbn. lia.
  - destruct H as (e & dst & -> & ->). split; [| intros H; discriminate H].
    rewrite label_texts_clova, crop_seq_clova, label_texts_app, crop_seq_app,
      label_texts_crop_events, crop_seq_crop_events.
    cbn. rewrite !app_nil_r, !length_map. lia.
  - destruct H as (d3 & size & _ & _ & _ & ->).
    rewrite label_texts_clova, crop_seq_clova, label_texts_app, crop_seq_app,
      label_texts_crop_events, crop_seq_crop_events.
    cbn. rewrite !app_nil_r, !length_map. split; [lia | done].
Qed.

Lemma process_files_counts (sv : services) (a : args) (dirs : list string)
    (labels : string) (files : list string) :
  forall w,
    let o := process_files sv a dirs labels files w in
    (length (label_texts (trace o)) <= length (crop_seq (trace o)) <=
       length (label_texts (trace o)) + 1)%nat /\
    (res o = Ok tt -> length (crop_seq (trace o)) = length (label_texts (trace o))).
Proof.
  induction files as [|f rest IH]; intros w; cbn zeta; cbn [process_files].
  - cbn. split; [lia | done].
  - pose proof (process_file_counts sv a dirs labels f w) as [Hf Hfok]. cbn zeta in Hf, Hfok.
    destruct (trace_bind (process_file sv a dirs labels f)
                (fun _ => process_files sv a dirs labels rest) w)
      as [(e & _ & -> & ->) | ([] & Hok & -> & ->)].
    + split; [exact Hf | intros H; discriminate H].
    + specialize (Hfok Hok).
      destruct (IH (final (process_file sv a dirs labels f w))) as [Hr Hrok].
      rewrite label_texts_app, crop_seq_app, !length_app. split; [lia |].
      intros H. rewrite (Hrok H). lia.
Qed.


Lemma run_shape (sv : services) (a : args) (w : world) : run_outcome sv a w (run sv a w).
Proof.
  unfold run_outcome. rewrite run_eq.
  destruct (negb (path_exists w (input_path a))).
  { left. eexists. split; [reflexivity |]. split; [constructor | reflexivity]. }
  destruct (isdir w (output_path a)) eqn:Ed.
  { left. unfold bind. rewrite Ed. eexists. split; [reflexivity |].
    split; [constructor | reflexivity]. }
  match goal with
  | |- context [bind ?v (batch sv a) w] =>
      assert (E : bind v (batch sv a) w =
                  bind (create_working_directory (output_path a)
                          ["recognized"; "cropped"; "converted"]) (batch sv a) w)
        by (unfold bind; rewrite Ed; reflexivity);
      rewrite E; clear E
  end.
  pose proof (create_working_directory_cases (output_path a)
                ["recognized"; "cropped"; "converted"] w) as Hc. cbn zeta in Hc.
  destruct (create_working_directory (output_path a) ["recognized"; "cropped"; "converted"] w)
    as [[dirs|e] w0 t0] eqn:Ec; cbn [res final trace] in Hc |- *.
  2:{ rewrite (bind_eq_raise _ _ _ _ _ _ Ec). left. exists e. cbn.
      destruct Hc as [[e' [= _ -> ->]] | (Hs & _ & _ & Hl & _)]; [by split |].
      by split. }
  rewrite (bind_eq_ok _ _ _ _ _ _ Ec). cbn [res final trace].
  destruct Hc as [[e' Hc] | (Hs & _ & _ & Hl & Hds)]; [discriminate Hc |].
  destruct (batch_cases sv a dirs w0) as [[e ->] | (files & labels & w1 & Hfiles & _ & Ho & Hb)].
  { left. exists e. cbn. rewrite app_nil_r. by split. }
  right. exists t0, dirs, labels, files, w1. cbn zeta in Hb |- *. rewrite Hb.
  split; [done |]. split; [by apply Hds |]. split; [done |]. split; [done |].
  destruct (res (process_files sv a dirs labels files w1)) as [[]|e]; cbn.
  - by left.
  - right. by exists e.
Qed.



(** X21: in every run, complete or not, the label records never
    outnumber the saved crops and the crops are at most one ahead of the
    records; a run that completes has saved as many crops as it has
    written records. *)
Theorem crops_and_records (sv : services) (a : args) (w : world) :
  (length (label_texts (trace (run sv a w))) <= length (crop_seq (trace (run sv a w))) <=
     length (label_texts (trace (run sv a w))) + 1)%nat /\
  (res (run sv a w) = Ok tt ->
   length (crop_seq (trace (run sv a w))) = length (label_texts (trace (run sv a w)))).
Proof.
  destruct (run_shape sv a w) as [(e & He & Hs & _) | H].
  { apply setup_projections in Hs as (-> & -> & _). split; [cbn; lia | congruence]. }
  destruct H as (t0 & dirs & labels & files & w1 & H). cbn zeta in H.
  destruct H as (Hs & _ & _ & _ & H).
  apply setup_projections in Hs as (Hs1 & Hs2 & _).
  destruct (process_files_counts sv a dirs labels files w1) as [Hc Hcok].
  destruct H as [[Hp ->] | (e & _ & ->)]; cbn [res trace];
    rewrite label_texts_app, crop_seq_app, Hs1, Hs2; cbn [app];
    change (label_texts (OpenLabels labels :: ?t)) with (label_texts t);
    change (crop_seq (OpenLabels labels :: ?t)) with (crop_seq t).
  - rewrite label_texts_app, crop_seq_app. cbn. rewrite !app_nil_r.
    split; [exact Hc | intros _; by apply Hcok].
  - split; [exact Hc | intros H; discriminate H].
Qed.

Lemma crops_and_records_witness :
  length (crop_seq (trace (run three_fields in_out one_image)))
    = length (label_texts (trace (run three_fields in_out one_image))).
Proof.
  apply (crops_and_records three_fields in_out one_image). vm_compute. reflexivity.
Defined.

(** X22: a run that completes has made the working directories, opened
    [labels] once, at [output_path/dirs[2]/labels.txt], processed the
    images and closed [labels] as its last step. *)
Theorem labels_opened_once (sv : services) (a : args) (w : world) :
  res (run sv a w) = Ok tt ->
  exists before middle,
    trace (run sv a w) =
      (before
       ++ OpenLabels (path_join (path_join (output_path a)
                                           (path_join (output_path a) "cropped"))
                                "labels.txt")
       :: middle ++ [CloseLabels])%list /\
    Forall setup before /\ Forall image_event middle /\
    labels_open (final (run sv a w)) = false.
Proof.
  intros Hok. rewrite run_eq in Hok |- *.
  destruct (negb (path_exists w (input_path a))); [discriminate Hok |].
  destruct (isdir w (output_path a)) eqn:Ed.
  { revert Hok. unfold bind. rewrite Ed. intros H; discriminate H. }
  revert Hok.
  match goal with
  | |- context [bind ?v (batch sv a) w] =>
      assert (E : bind v (batch sv a) w =
                  bind (create_working_directory (output_path a)
                          ["recognized"; "cropped"; "converted"]) (batch sv a) w)
        by (unfold bind; rewrite Ed; reflexivity);
      rewrite E; clear E
  end.
  pose proof (create_working_directory_cases (output_path a)
                ["recognized"; "cropped"; "converted"] w) as Hc. cbn zeta in Hc.
  destruct (create_working_directory (output_path a) ["recognized"; "cropped"; "converted"] w)
    as [[dirs|e] w0 t0] eqn:Ec; cbn [res final trace] in Hc |- *.
  2:{ rewrite (bind_eq_raise _ _ _ _ _ _ Ec). intros H; discriminate H. }
  rewrite (bind_eq_ok _ _ _ _ _ _ Ec). cbn [res final trace].
  destruct Hc as [[e' Hc] | (Hs & _ & _ & _ & Hds)]; [discriminate Hc |].
  rewrite (Hds dirs eq_refl). unfold batch.
  destruct (get_files_cases (input_path a) w0) as [[e E] | (files & E & _)].
  { rewrite (bind_eq_raise _ _ _ _ _ _ E). intros H; discriminate H. }
  rewrite (bind_eq_ret _ _ _ _ E). cbn [fst map].
  change (index (output_path a :: ?x :: ?y :: ?z) 2) with (Ok (A:=string) y).
  rewrite bind_lift_ok.
  set (p := path_join (path_join (output_path a) (path_join (output_path a) "cropped"))
                      "labels.txt").
  destruct (open_labels_cases p w0) as [[e Eo] | Eo].
  { rewrite (bind_eq_raise _ _ _ _ _ _ Eo). intros H; discriminate H. }
  rewrite (bind_eq_ok _ _ _ _ _ _ Eo). cbn [res final trace].
  match goal with
  | |- context [process_files sv a ?ds p files] => set (dirs' := ds)
  end.
  pose proof (process_files_events sv a dirs' p files (opened w0 p)) as Hev.
  unfold bind.
  destruct (process_files sv a dirs' p files (opened w0 p)) as [[[]|e] w2 t];
    cbn [res final trace] in *; [| intros H; discriminate H].
  intros _. exists t0, t. cbn. done.
Qed.

Lemma labels_opened_once_witness :
  exists before middle,
    trace (run three_fields in_out one_image) =
      (before
       ++ OpenLabels (path_join (path_join (output_path in_out)
                                           (path_join (output_path in_out) "cropped"))
                                "labels.txt")
       :: middle ++ [CloseLabels])%list /\
    Forall setup before /\ Forall image_event middle /\
    labels_open (final (run three_fields in_out one_image)) = false.
Proof.
  apply (labels_opened_once three_fields in_out one_image).
  vm_compute. reflexivity.
Defined.

(** X23: a run that raises once [labels] is open never closes it: the
    handle stays open and no close is among the operations performed. *)
Theorem labels_left_open (sv : services) (a : args) (w : world) (e : exn) (p : string) :
  res (run sv a w) = Raise e ->
  OpenLabels p ∈ trace (run sv a w) ->
  labels_open (final (run sv a w)) = true /\ CloseLabels ∉ trace (run sv a w).
Proof.
  intros Hr Hin. split; [by eapply run_raise_leaves_open |].
  destruct (run_shape sv a w) as [(e' & _ & Hs & _) | H].
  { intros Hc. rewrite Forall_forall in Hs. by apply Hs in Hc. }
  destruct H as (t0 & dirs & labels & files & w1 & H). cbn zeta in H.
  destruct H as (Hs & _ & _ & _ & [[_ E] | (e' & _ & E)]); rewrite E in Hr |- *;
    [discriminate Hr |].
  cbn [trace]. pose proof (process_files_events sv a dirs labels files w1) as Hev.
  rewrite Forall_forall in Hs, Hev.
  intros [Hc | Hc]%elem_of_app; [by apply Hs in Hc |].
  apply elem_of_cons in Hc as [Hc | Hc]; [discriminate Hc | by apply Hev in Hc].
Qed.

Lemma labels_left_open_witness :
  labels_open (final (run three_fields in_out image_and_notes)) = true.
Proof.
  apply (labels_left_open three_fields in_out image_and_notes ValueError
           "/out/cropped/labels.txt").
  - vm_compute. reflexivity.
  - let t := eval vm_compute in (trace (run three_fields in_out image_and_notes)) in
    change (trace (run three_fields in_out image_and_notes)) with t.
    repeat (first [apply list_elem_of_here | apply list_elem_of_further]).
Defined.

Lemma run_grows (sv : services) (a : args) (w : world) : grows w (final (run sv a w)).
Proof.
  rewrite run_eq.
  destruct (negb (path_exists w (input_path a))); [apply grows_refl |].
  destruct (isdir w (output_path a)) eqn:Ed.
  { unfold bind. rewrite Ed. apply grows_refl. }
  match goal with
  | |- context [bind ?v (batch sv a) w] =>
      assert (E : bind v (batch sv a) w =
                  bind (create_working_directory (output_path a)
                          ["recognized"; "cropped"; "converted"]) (batch sv a) w)
        by (unfold bind; rewrite Ed; reflexivity);
      rewrite E; clear E
  end.
  pose proof (create_working_directory_cases (output_path a)
                ["recognized"; "cropped"; "converted"] w) as Hc. cbn zeta in Hc.
  destruct (create_working_directory (output_path a) ["recognized"; "cropped"; "converted"] w)
    as [[dirs|e] w0 t0] eqn:Ec; cbn [res final trace] in Hc.
  - rewrite (bind_eq_ok _ _ _ _ _ _ Ec). cbn [final].
    destruct Hc as [[e' Hc] | (_ & _ & Hg & _)]; [discriminate Hc |].
    eapply grows_trans; [exact Hg | apply batch_grows].
  - rewrite (bind_eq_raise _ _ _ _ _ _ Ec). cbn [final].
    destruct Hc as [[e' [= _ -> _]] | (_ & _ & Hg & _)]; [apply grows_refl | exact Hg].
Qed.

(** X24: a run removes nothing: every directory and every file that was
    there before is there after, however the run ends. *)
Theorem run_removes_nothing (sv : services) (a : args) (w : world) (p : string) :
  (isdir w p = true -> isdir (final (run sv a w)) p = true) /\
  (isfile w p = true -> isfile (final (run sv a w)) p = true).
Proof.
  destruct (run_grows sv a w) as [Hd Hf]. unfold isdir, isfile.
  rewrite !bool_decide_eq_true, <- !elem_of_dom. split; [apply Hd | apply Hf].
Qed.

Lemma run_removes_nothing_witness :
  isfile (final (run three_fields in_out one_image)) "/in/0000000001.png" = true.
Proof.
  apply (run_removes_nothing three_fields in_out one_image "/in/0000000001.png").
  vm_compute. reflexivity.
Defined.

(** ** The input path and the output path *)

Lemma makedirs_file_stays (p q : string) (w : world) :
  isfile w q = true -> isdir w q = false ->
  isfile (final (makedirs p w)) q = true /\ isdir (final (makedirs p w)) q = false.
Proof.
  intros Hf Hd. unfold makedirs.
  destruct (String.eqb p ""); [by split |].
  destruct (path_exists w p) eqn:Ep; [by split |].
  destruct (existsb (isfile w) (ancestors p)) eqn:Ea; [by split |].
  cbn. split; [exact Hf |].
  unfold isdir in *. cbn. apply bool_decide_eq_false. apply bool_decide_eq_false in Hd.
  rewrite !elem_of_union, elem_of_list_to_set, elem_of_singleton.
  intros [[Hin | Hin] | ->]; [done | |].
  - assert (existsb (isfile w) (ancestors p) = true) as Hc; [| congruence].
    apply existsb_exists. exists q. split; [by apply list_elem_of_In | exact Hf].
  - unfold path_exists in Ep. rewrite Hf, orb_true_r in Ep. discriminate Ep.
Qed.

Lemma make_sub_dirs_file_stays (root q : string) (sub_dirs : list string) :
  forall dirs w,
    isfile w q = true -> isdir w q = false ->
    isfile (final (make_sub_dirs root sub_dirs dirs w)) q = true /\
    isdir (final (make_sub_dirs root sub_dirs dirs w)) q = false.
Proof.
  induction sub_dirs as [|s rest IH]; intros dirs w Hf Hd; cbn [make_sub_dirs]; [by split |].
  destruct (makedirs_file_stays (path_join root s) q w Hf Hd) as [Hf' Hd'].
  unfold bind.
  destruct (makedirs (path_join root s) w) as [[[]|e] w' t]; cbn in *; [by apply IH | by split].
Qed.

Lemma create_working_directory_file_stays (root q : string) (sub_dirs : list string) (w : world) :
  isfile w q = true -> isdir w q = false ->
  isfile (final (create_working_directory root sub_dirs w)) q = true /\
  isdir (final (create_working_directory root sub_dirs w)) q = false.
Proof.
  intros Hf Hd. unfold create_working_directory.
  destruct (makedirs_file_stays root q w Hf Hd) as [Hf' Hd'].
  unfold bind.
  destruct (makedirs root w) as [[[]|e] w' t]; cbn in *;
    [by apply make_sub_dirs_file_stays | by split].
Qed.

Lemma create_working_directory_ok_new (root : string) (sub_dirs : list string) (w : world)
    (ds : list string) :
  res (create_working_directory root sub_dirs w) = Ok ds -> isdir w root = false.
Proof.
  unfold create_working_directory, bind, makedirs, path_exists.
  destruct (String.eqb root ""); [intros H; discriminate H |].
  destruct (isdir w root); [intros H; discriminate H | done].
Qed.

(** X25: when the input path names a file, [run] passes its first check
    and makes the working directories; if that succeeds, the listing of
    the input path raises and the directories stay behind, empty. *)
Theorem run_input_is_file (sv : services) (a : args) (w : world) (ds : list string) :
  isfile w (input_path a) = true -> isdir w (input_path a) = false ->
  let o := create_working_directory (output_path a)
             ["recognized"; "cropped"; "converted"] w in
  res o = Ok ds ->
  run sv a w = {| res := Raise OSError; final := final o; trace := trace o |}.
Proof.
  intros Hf Hd o Hok. rewrite run_eq.
  unfold path_exists at 1. rewrite Hf, orb_true_r. cbn [negb].
  pose proof (create_working_directory_ok_new _ _ _ _ Hok) as Ed.
  match goal with
  | |- bind ?v (batch sv a) w = _ =>
      assert (E : bind v (batch sv a) w =
                  bind (create_working_directory (output_path a)
                          ["recognized"; "cropped"; "converted"]) (batch sv a) w)
        by (unfold bind; rewrite Ed; reflexivity);
      rewrite E; clear E
  end.
  destruct (create_working_directory_file_stays (output_path a) (input_path a)
              ["recognized"; "cropped"; "converted"] w Hf Hd) as [Hf' Hd'].
  fold o in Hf', Hd'. unfold bind. fold o. rewrite Hok.
  unfold batch, bind, get_files, bind, listdir. rewrite Hd', Hf'. cbn.
  by rewrite app_nil_r.
Qed.

Lemma run_input_is_file_witness :
  run three_fields file_in one_image =
    {| res := Raise OSError;
       final := final (create_working_directory "/out"
                         ["recognized"; "cropped"; "converted"] one_image);
       trace := trace (create_working_directory "/out"
                         ["recognized"; "cropped"; "converted"] one_image) |}.
Proof.
  apply (run_input_is_file three_fields file_in one_image out_dirs);
    vm_compute; reflexivity.
Defined.























